(** * Access_Sentinel6_NRT: the watermark-driven incremental sync

    A shallow embedding of the "hands-off workflow" cells of
    [notebooks/sentinel-6/Access_Sentinel6_NRT.ipynb] (the parameter cell
    and the cells from the default timestamp down to the [.update] write),
    executed top to bottom as papermill does: the first uncaught exception
    ends the run.

    What the notebook touches outside Python is kept in an explicit
    [world]: the data directory, the UTC wall clock, the printed lines and
    the requests sent.  What the network answers is an oracle, [remote].

    Kept out of the model: the Earthdata Login cell (credentials, cookie
    jar), which the later cells do not read; the encoding and newline
    translation of text-mode files (a file is the text [read] returns and
    [write] is given); [OverflowError] of [datetime] arithmetic; the time
    local operations take (the clock moves while a request is under
    way).  The path [data] holds nothing or a directory of regular
    files. *)

From Stdlib Require Import ZArith Ascii String List Bool Lia DecimalString.
From stdpp Require Import base option gmap strings list fin_maps.

Import ListNotations.
Local Open Scope string_scope.
Local Open Scope list_scope.
Local Open Scope Z_scope.

(** ** Python strings and the helpers the notebook imports *)

Module Py.

(** [str(n)] for an [int]. *)
Definition str_int (n : Z) : string := NilZero.string_of_int (Z.to_int n).

Fixpoint contains (c : ascii) (s : string) : bool :=
  match s with
  | EmptyString => false
  | String d r => Ascii.eqb c d || contains c r
  end.

(** [os.path.basename] (posixpath): everything after the last slash. *)
Fixpoint basename (p : string) : string :=
  match p with
  | EmptyString => EmptyString
  | String c r =>
      if contains "/" r then basename r
      else if Ascii.eqb c "/" then r
      else p
  end.

(** The characters [urllib.parse.quote] never escapes:
    letters, digits and [_.-~]. *)
Definition always_safe (c : ascii) : bool :=
  let n := Z.of_N (N_of_ascii c) in
  ((65 <=? n) && (n <=? 90)) || ((97 <=? n) && (n <=? 122))
  || ((48 <=? n) && (n <=? 57))
  || Ascii.eqb c "_" || Ascii.eqb c "." || Ascii.eqb c "-" || Ascii.eqb c "~".

Definition hex_digit (n : Z) : ascii :=
  if n <? 10 then ascii_of_N (Z.to_N (48 + n)) else ascii_of_N (Z.to_N (55 + n)).

(** [urllib.parse.quote_plus(s)]: a space becomes [+], every other byte
    outside [always_safe] becomes [%XX] in upper-case hexadecimal.  A
    [string] here is the UTF-8 byte sequence of the Python [str]. *)
Fixpoint quote_plus (s : string) : string :=
  match s with
  | EmptyString => EmptyString
  | String c r =>
      if always_safe c then String c (quote_plus r)
      else if Ascii.eqb c " " then String "+" (quote_plus r)
      else
        let n := Z.of_N (N_of_ascii c) in
        String "%" (String (hex_digit (n / 16)) (String (hex_digit (n mod 16)) (quote_plus r)))
  end.

(** The values the notebook stores in [params]. *)
Inductive value :=
| VStr (s : string)
| VInt (n : Z).

Definition str (v : value) : string :=
  match v with
  | VStr s => s
  | VInt n => str_int n
  end.

Fixpoint join (sep : string) (l : list string) : string :=
  match l with
  | [] => EmptyString
  | [x] => x
  | x :: r => x ++ sep ++ join sep r
  end.

(** [urllib.parse.urlencode(d)] on a dict, in insertion order. *)
Definition urlencode (d : list (string * value)) : string :=
  join "&" (map (fun kv => (quote_plus (fst kv) ++ "=" ++ quote_plus (str (snd kv)))%string) d).

End Py.

(** ** [datetime]: instants, [timedelta(minutes=...)] and [strftime]

    An instant is the number of microseconds since 1970-01-01T00:00:00 UTC,
    which is what [datetime.utcnow()] reads off the system clock.  The
    calendar computation is the one of CPython's [datetime] module
    ([_days_before_year], [_ord2ymd]); instants are taken within the years
    1000..9999, where [%Y] prints four digits. *)

Module Datetime.

Definition is_leap (year : Z) : bool :=
  (year mod 4 =? 0) && (negb (year mod 100 =? 0) || (year mod 400 =? 0)).

Definition days_before_year (year : Z) : Z :=
  let y := year - 1 in y * 365 + y / 4 - y / 100 + y / 400.

Definition DAYS_IN_MONTH : list Z := [-1; 31; 28; 31; 30; 31; 30; 31; 31; 30; 31; 30; 31].
Definition DAYS_BEFORE_MONTH : list Z := [-1; 0; 31; 59; 90; 120; 151; 181; 212; 243; 273; 304; 334].

Definition tbl (t : list Z) (i : Z) : Z := nth (Z.to_nat i) t 0.

Definition DI400Y : Z := Eval cbv in days_before_year 401.
Definition DI100Y : Z := Eval cbv in days_before_year 101.
Definition DI4Y : Z := Eval cbv in days_before_year 5.

Definition b2z (b : bool) : Z := if b then 1 else 0.

(** [_ord2ymd(n)]: ordinal (1 = 0001-01-01) to year, month, day. *)
Definition ord2ymd (n : Z) : Z * Z * Z :=
  let n := n - 1 in
  let n400 := n / DI400Y in let n := n mod DI400Y in
  let year := n400 * 400 + 1 in
  let n100 := n / DI100Y in let n := n mod DI100Y in
  let n4 := n / DI4Y in let n := n mod DI4Y in
  let n1 := n / 365 in let n := n mod 365 in
  let year := year + n100 * 100 + n4 * 4 + n1 in
  if (n1 =? 4) || (n100 =? 4) then (year - 1, 12, 31)
  else
    let leapyear := (n1 =? 3) && (negb (n4 =? 24) || (n100 =? 3)) in
    let month := Z.shiftr (n + 50) 5 in
    let preceding := tbl DAYS_BEFORE_MONTH month + b2z ((2 <? month) && leapyear) in
    let '(month, preceding) :=
      if n <? preceding
      then (month - 1,
            preceding - (tbl DAYS_IN_MONTH (month - 1) + b2z ((month - 1 =? 2) && leapyear)))
      else (month, preceding) in
    (year, month, n - preceding + 1).

(** [_ymd2ord(1970, 1, 1)]. *)
Definition EPOCH_ORDINAL : Z := 719163.

Definition US_PER_SECOND : Z := 1000000.

(** [timedelta(minutes=m)] in microseconds. *)
Definition minutes (m : Z) : Z := m * 60 * US_PER_SECOND.

Definition digit (n : Z) : ascii := ascii_of_N (Z.to_N (48 + n mod 10)).

Definition pad2 (n : Z) : string :=
  String (digit (n / 10)) (String (digit n) EmptyString).

Definition pad4 (n : Z) : string :=
  String (digit (n / 1000)) (String (digit (n / 100)) (pad2 n)).

(** The whole second an instant falls in ([strftime] drops the
    microseconds). *)
Definition whole_second (t : Z) : Z := t / US_PER_SECOND.

(** A whole second since the epoch printed as [%Y-%m-%dT%H:%M:%SZ]. *)
Definition isoformat_second (s : Z) : string :=
  let '(y, m, d) := ord2ymd (s / 86400 + EPOCH_ORDINAL) in
  let r := s mod 86400 in
  pad4 y ++ "-" ++ pad2 m ++ "-" ++ pad2 d ++ "T"
    ++ pad2 (r / 3600) ++ ":" ++ pad2 (r mod 3600 / 60) ++ ":" ++ pad2 (r mod 60) ++ "Z".

(** [t.strftime("%Y-%m-%dT%H:%M:%SZ")]. *)
Definition strftime (t : Z) : string := isoformat_second (whole_second t).

(** [date.max.toordinal()]. *)
Definition MAXORDINAL : Z := 3652059.

(** The instants a [datetime] can hold: years 1 to 9999. *)
Definition representable (t : Z) : Prop :=
  1 <= whole_second t / 86400 + EPOCH_ORDINAL <= MAXORDINAL.

End Datetime.

(** ** The calendar computation taken apart

    The two halves of [ord2ymd], the digits of its mixed-radix division
    and the numeric keys used to compare printed timestamps. *)

Module Calendar.
Import Datetime.

(** Year, day of the year (from 0) and leap flag, as the first half of
    [ord2ymd] computes them; the last day of a 4-year or 400-year cycle is
    day 365 of the leap year that ends it. *)
Definition year_day (n : Z) : Z * Z * bool :=
  let n := n - 1 in
  let n400 := n / DI400Y in let n := n mod DI400Y in
  let year := n400 * 400 + 1 in
  let n100 := n / DI100Y in let n := n mod DI100Y in
  let n4 := n / DI4Y in let n := n mod DI4Y in
  let n1 := n / 365 in let n := n mod 365 in
  let year := year + n100 * 100 + n4 * 4 + n1 in
  if (n1 =? 4) || (n100 =? 4) then (year - 1, 365, true)
  else (year, n, (n1 =? 3) && (negb (n4 =? 24) || (n100 =? 3))).

(** Month and day from the day of the year: the second half. *)
Definition month_day (n : Z) (leapyear : bool) : Z * Z :=
  let month := Z.shiftr (n + 50) 5 in
  let preceding := tbl DAYS_BEFORE_MONTH month + b2z ((2 <? month) && leapyear) in
  let '(month, preceding) :=
    if n <? preceding
    then (month - 1,
          preceding - (tbl DAYS_IN_MONTH (month - 1) + b2z ((month - 1 =? 2) && leapyear)))
    else (month, preceding) in
  (month, n - preceding + 1).

(** Month and day as one number, [-1] when out of the calendar. *)
Definition md_key (n : Z) (leap : bool) : Z :=
  let '(m, d) := month_day n leap in
  if (1 <=? m) && (m <=? 12) && (1 <=? d) && (d <=? 31) then m * 100 + d else -1.

(** [md_key] is positive and increases day by day up to day [k]. *)
Fixpoint md_increasing (k : nat) (leap : bool) : bool :=
  match k with
  | O => 0 <? md_key 0 leap
  | S k' => (md_key (Z.of_nat k') leap <? md_key (Z.of_nat k) leap) && md_increasing k' leap
  end.

(** The quotients and the last remainder of the divisions by 146097,
    36524, 1461 and 365, and what the cycle ends force on them. *)
Record digits (x q n100 n4 n1 r : Z) : Prop := {
  d_sum : x = 146097 * q + 36524 * n100 + 1461 * n4 + 365 * n1 + r;
  d_100 : 0 <= n100 <= 4;
  d_4 : 0 <= n4 <= 24;
  d_1 : 0 <= n1 <= 4;
  d_r : 0 <= r <= 364;
  d_end400 : n100 = 4 → n4 = 0 ∧ n1 = 0 ∧ r = 0;
  d_end4 : n1 = 4 → r = 0;
  d_end100 : n4 = 24 → n1 <= 3;
}.

(** The six fields of a timestamp as one number. *)
Definition key (y m d H M S : Z) : Z :=
  ((((y * 100 + m) * 100 + d) * 100 + H) * 100 + M) * 100 + S.

(** The six fields printed. *)
Definition render (y m d H M S : Z) : string :=
  pad4 y ++ "-" ++ pad2 m ++ "-" ++ pad2 d ++ "T"
    ++ pad2 H ++ ":" ++ pad2 M ++ ":" ++ pad2 S ++ "Z".

(** Year, month and day of an ordinal as one number. *)
Definition date_key (n : Z) : Z :=
  let '(y, m, d) := ord2ymd n in (y * 100 + m) * 100 + d.

End Calendar.

(** ** Parsed JSON and the Python operations the notebook applies to it *)

#[warnings="-register-all"]
Inductive json :=
| JNull
| JBool (b : bool)
| JNum (n : Z)
| JStr (s : string)
| JArr (l : list json)
| JObj (kv : list (string * json)).

(** The exceptions a run can end with. *)
Inductive exn :=
| KeyError
| TypeError
| IndexError
| FileNotFoundError
| FileExistsError
| IsADirectoryError
| URLError          (* raised by urlopen / urlretrieve: transport or HTTP status *)
| JSONDecodeError.

Inductive result (A : Type) :=
| Ok (a : A)
| Raise (e : exn).
Arguments Ok {A} a.
Arguments Raise {A} e.

Module Json.

Fixpoint assoc (k : string) (kv : list (string * json)) : option json :=
  match kv with
  | [] => None
  | (k', v) :: r => if String.eqb k k' then Some v else assoc k r
  end.

(** [v[k]] for a string key [k]: only a dict can be subscripted by a
    string; a missing key is a [KeyError]. *)
Definition getitem (v : json) (k : string) : result json :=
  match v with
  | JObj kv => match assoc k kv with Some x => Ok x | None => Raise KeyError end
  | _ => Raise TypeError
  end.

Definition chars (s : string) : list json :=
  map (fun c => JStr (String c EmptyString)) (list_ascii_of_string s).

(** What [for x in v] ranges over: the elements of a list, the keys of a
    dict, the characters of a string. *)
Definition iter (v : json) : result (list json) :=
  match v with
  | JArr l => Ok l
  | JObj kv => Ok (map (fun p => JStr (fst p)) kv)
  | JStr s => Ok (chars s)
  | _ => Raise TypeError
  end.

(** [len(v)]. *)
Definition len (v : json) : result nat :=
  match v with
  | JArr l => Ok (length l)
  | JObj kv => Ok (length kv)
  | JStr s => Ok (String.length s)
  | _ => Raise TypeError
  end.

(** [v[0]]: the first element of a list or string; a dict parsed from JSON
    has string keys only, so [0] is never one of them. *)
Definition first (v : json) : result json :=
  match v with
  | JArr (x :: _) => Ok x
  | JArr [] => Raise IndexError
  | JStr s => match chars s with x :: _ => Ok x | [] => Raise IndexError end
  | JObj _ => Raise KeyError
  | _ => Raise TypeError
  end.

(** [v == s] for a string literal [s]. *)
Definition eq_str (v : json) (s : string) : bool :=
  match v with
  | JStr s' => String.eqb s' s
  | _ => false
  end.

End Json.

(** ** The world a run acts on *)

(** Lines written by [print]. *)
Inductive line :=
| NoteMkdir (data : string)
| WarnNoUpdate
| NoteFound (timestamp : string)
| ShowUrl (url : string)
| ShowHits (hits : json) (ccid timestamp : string)
| ShowRecord (r : json)
| Failure (f : json) (e : exn)
| Success (f : json).

(** Requests that leave the machine, in the order they are sent. *)
Inductive request :=
| Urlopen (url : string)
| Urlretrieve (url filename : string).

(** [fs] is what sits at the path [data]: nothing, or a directory of
    regular files (name to contents); [clock] is the UTC wall clock in
    microseconds since the epoch; [out] and [sent] are in chronological
    order. *)
Record world := World {
  fs : option (gmap string string);
  clock : Z;
  out : list line;
  sent : list request;
}.

(** What the catalog answers to one GET. *)
Inductive reply :=
| NoReply           (* urlopen raises *)
| Garbled           (* the body is not JSON: loads raises *)
| Body (v : json).

(** What happens to one [urlretrieve]. *)
Inductive fetch :=
| Refused                        (* urlopen raises before the target is opened *)
| Interrupted (partial : string) (* target opened, [partial] written, then an exception *)
| Complete (body : string).

(** The network: the answer to a request sent at a given instant, and the
    time that passes until the call returns. *)
Record remote := Remote {
  search : Z -> string -> reply * Z;
  archive : Z -> string -> fetch * Z;
}.

(** The parameter cell. *)
Record config := Config {
  mins : Z;
  cmr : string;
  ccid : string;
  data : string;
}.

(** The name of the watermark file inside [data]. *)
Definition UPDATE : string := ".update".

(** ** State and exceptions *)

Definition M (A : Type) : Type := world -> result A * world.

Definition ret {A} (a : A) : M A := fun w => (Ok a, w).
Definition raise {A} (e : exn) : M A := fun w => (Raise e, w).
Definition bind {A B} (m : M A) (k : A -> M B) : M B :=
  fun w => match m w with
           | (Ok a, w') => k a w'
           | (Raise e, w') => (Raise e, w')
           end.
Definition lift {A} (r : result A) : M A := fun w => (r, w).

Declare Scope run_scope.
Delimit Scope run_scope with run.
Notation "x <- m ;; k" := (bind m (fun x => k))
  (at level 100, m at next level, right associativity) : run_scope.
Notation "m ;;; k" := (bind m (fun _ => k))
  (at level 100, right associativity) : run_scope.
Local Open Scope run_scope.

(** [try: m  except e as x: h x  else: k a]. *)
Definition try_except {A B} (m : M A) (catches : exn -> bool)
    (h : exn -> M B) (k : A -> M B) : M B :=
  fun w => match m w with
           | (Ok a, w') => k a w'
           | (Raise e, w') => if catches e then h e w' else (Raise e, w')
           end.

Definition print (l : line) : M unit :=
  fun w => (Ok tt, World (fs w) (clock w) (out w ++ [l]) (sent w)).

Definition utcnow : M Z := fun w => (Ok (clock w), w).

Definition isdir : M bool :=
  fun w => (Ok (match fs w with Some _ => true | None => false end), w).

(** [makedirs(data)]. *)
Definition makedirs : M unit :=
  fun w => match fs w with
           | None => (Ok tt, World (Some ∅) (clock w) (out w) (sent w))
           | Some _ => (Raise FileExistsError, w)
           end.

(** Names that denote a directory inside [data]: [data/], [data/.] and
    [data/..]. *)
Definition names_directory (name : string) : bool :=
  String.eqb name "" || String.eqb name "." || String.eqb name "..".

(** [open(f"{data}/{name}", "r").read()]. *)
Definition read_file (name : string) : M string :=
  fun w => match fs w with
           | Some d =>
               if names_directory name then (Raise IsADirectoryError, w)
               else match d !! name with
                    | Some c => (Ok c, w)
                    | None => (Raise FileNotFoundError, w)
                    end
           | None => (Raise FileNotFoundError, w)
           end.

(** [open(f"{data}/{name}", "w").write(s)]: create or truncate, then
    write. *)
Definition write_file (name s : string) : M unit :=
  fun w => match fs w with
           | Some d =>
               if names_directory name then (Raise IsADirectoryError, w)
               else (Ok tt, World (Some (<[name := s]> d)) (clock w) (out w) (sent w))
           | None => (Raise FileNotFoundError, w)
           end.

Definition send (r : request) (elapsed : Z) : M unit :=
  fun w => (Ok tt, World (fs w) (clock w + elapsed) (out w) (sent w ++ [r])).

(** [with urlopen(url) as f: loads(f.read().decode())]. *)
Definition urlopen_loads (net : remote) (url : string) : M json :=
  now <- utcnow ;;
  let '(r, elapsed) := search net now url in
  send (Urlopen url) elapsed ;;;
  match r with
  | NoReply => raise URLError
  | Garbled => raise JSONDecodeError
  | Body v => ret v
  end.

(** [urlretrieve(url, f"{data}/{name}")]: the request goes out first; the
    target is opened for writing only once the response has started. *)
Definition urlretrieve (net : remote) (c : config) (url name : string) : M unit :=
  now <- utcnow ;;
  let '(r, elapsed) := archive net now url in
  send (Urlretrieve url (data c ++ "/" ++ name)) elapsed ;;;
  match r with
  | Refused => raise URLError
  | Interrupted partial => write_file name partial ;;; raise URLError
  | Complete body => write_file name body
  end.

(** ** The cells *)

(** [strftime("%Y-%m-%dT%H:%M:%SZ")], the one format of the notebook. *)
Definition FORMAT (t : Z) : string := Datetime.strftime t.

(** [timestamp = (datetime.utcnow()-timedelta(minutes=mins)).strftime(...)] *)
Definition default_timestamp (c : config) : M string :=
  now <- utcnow ;;
  ret (FORMAT (now - Datetime.minutes (mins c))).

(** The cell that replaces the default by the contents of [.update]. *)
Definition read_update (c : config) (timestamp : string) : M string :=
  d <- isdir ;;
  if negb d then
    print (NoteMkdir (data c)) ;;;
    makedirs ;;;
    ret timestamp
  else
    try_except (read_file UPDATE)
      (fun e => match e with FileNotFoundError => true | _ => false end)
      (fun _ => print WarnNoUpdate ;;; ret timestamp)
      (fun contents => print (NoteFound contents) ;;; ret contents).

Definition params (c : config) (timestamp : string) : list (string * Py.value) :=
  [ ("scroll", Py.VStr "true");
    ("page_size", Py.VInt 2000);
    ("sort_key", Py.VStr "-start_date");
    ("collection_concept_id", Py.VStr (ccid c));
    ("created_at", Py.VStr timestamp);
    ("bounding_box", Py.VStr "-146.5,57.5,-146,58") ].

(** [query = urlencode(params)] *)
Definition query (c : config) (timestamp : string) : string :=
  Py.urlencode (params c timestamp).

(** [url = f"https://{cmr}/search/granules.umm_json?{query}"] *)
Definition url (c : config) (timestamp : string) : string :=
  "https://" ++ cmr c ++ "/search/granules.umm_json?" ++ query c timestamp.

(** The cell that sends the query: one GET, the hit count printed, then
    the new timestamp. *)
Definition request_results (c : config) (net : remote) (url timestamp : string) : M (json * string) :=
  results <- urlopen_loads net url ;;
  hits <- lift (Json.getitem results "hits") ;;
  print (ShowHits hits (ccid c) timestamp) ;;;
  now <- utcnow ;;
  ret (results, FORMAT now).

(** [len(results['items'])>0] *)
Definition has_items (results : json) : result bool :=
  match Json.getitem results "items" with
  | Raise e => Raise e
  | Ok items =>
      match Json.len items with
      | Raise e => Raise e
      | Ok n => Ok (0 <? Z.of_nat n)
      end
  end.

(** The cell that prints the first record. *)
Definition show_first (results : json) : M unit :=
  b <- lift (has_items results) ;;
  if (b : bool) then
    items <- lift (Json.getitem results "items") ;;
    r <- lift (Json.first items) ;;
    print (ShowRecord r)
  else ret tt.

(** [[u['URL'] for u in urls if u['Type']=="GET DATA"]]: the condition is
    evaluated for every entry, the element only where it holds. *)
Fixpoint get_data_urls (urls : list json) : result (list json) :=
  match urls with
  | [] => Ok []
  | u :: r =>
      match Json.getitem u "Type" with
      | Raise e => Raise e
      | Ok t =>
          if Json.eq_str t "GET DATA" then
            match Json.getitem u "URL" with
            | Raise e => Raise e
            | Ok x => match get_data_urls r with
                      | Ok xs => Ok (x :: xs)
                      | Raise e => Raise e
                      end
            end
          else get_data_urls r
      end
  end.

(** [[... for u in r['umm']['RelatedUrls'] if ...][0]] *)
Definition select (r : json) : result json :=
  match Json.getitem r "umm" with
  | Raise e => Raise e
  | Ok umm =>
      match Json.getitem umm "RelatedUrls" with
      | Raise e => Raise e
      | Ok related =>
          match Json.iter related with
          | Raise e => Raise e
          | Ok urls =>
              match get_data_urls urls with
              | Raise e => Raise e
              | Ok [] => Raise IndexError
              | Ok (x :: _) => Ok x
              end
          end
      end
  end.

Fixpoint select_all (items : list json) : result (list json) :=
  match items with
  | [] => Ok []
  | r :: rest =>
      match select r with
      | Raise e => Raise e
      | Ok x => match select_all rest with
                | Ok xs => Ok (x :: xs)
                | Raise e => Raise e
                end
      end
  end.

(** [downloads = [select(r) for r in results['items']]] *)
Definition downloads_of (results : json) : result (list json) :=
  match Json.getitem results "items" with
  | Raise e => Raise e
  | Ok items =>
      match Json.iter items with
      | Raise e => Raise e
      | Ok rs => select_all rs
      end
  end.

(** The body of the [try] in the download loop.  The arguments are
    evaluated first: [basename(f)] raises [TypeError] unless [f] is a
    string. *)
Definition retrieve (c : config) (net : remote) (f : json) : M unit :=
  match f with
  | JStr url => urlretrieve net c url (Py.basename url)
  | _ => raise TypeError
  end.

(** The download loop: [except Exception as e: print(...); raise e]. *)
Fixpoint download_loop (c : config) (net : remote) (downloads : list json) : M unit :=
  match downloads with
  | [] => ret tt
  | f :: rest =>
      try_except (retrieve c net f) (fun _ => true)
        (fun e => print (Failure f e) ;;; raise e)
        (fun _ => print (Success f)) ;;;
      download_loop c net rest
  end.

(** The last cell. *)
Definition write_update (results : json) (timestamp : string) : M unit :=
  b <- lift (has_items results) ;;
  if (b : bool) then write_file UPDATE timestamp else ret tt.

(** One run of the workflow. *)
Definition notebook (c : config) (net : remote) : M unit :=
  timestamp <- default_timestamp c ;;
  timestamp <- read_update c timestamp ;;
  let url := url c timestamp in
  print (ShowUrl url) ;;;
  rt <- request_results c net url timestamp ;;
  let '(results, timestamp) := rt in
  show_first results ;;;
  downloads <- lift (downloads_of results) ;;
  download_loop c net downloads ;;;
  write_update results timestamp.

(** The contents of [.update], if the file exists. *)
Definition stored (dir : option (gmap string string)) : option string :=
  d ← dir; d !! UPDATE.

Definition watermark (w : world) : option string := stored (fs w).


(** ** What a run observes: derived quantities used in the statements *)

(** The timestamp the default-timestamp cell computes. *)
Definition default_of (c : config) (w : world) : string :=
  FORMAT (clock w - Datetime.minutes (mins c)).

(** The timestamp in force after the [.update] cell. *)
Definition resolved (c : config) (w : world) : string :=
  match watermark w with
  | Some v => v
  | None => default_of c w
  end.

(** The URL of the catalog query, its answer, and the instant at which
    [urlopen] returns. *)
Definition asked (c : config) (w : world) : string := url c (resolved c w).
Definition answer (c : config) (net : remote) (w : world) : reply * Z :=
  search net (clock w) (asked c w).
Definition returned_at (c : config) (net : remote) (w : world) : Z :=
  clock w + snd (answer c net w).

(** The line the [.update] cell prints. *)
Definition note (c : config) (w : world) : line :=
  match fs w with
  | None => NoteMkdir (data c)
  | Some d => match d !! UPDATE with
              | Some v => NoteFound v
              | None => WarnNoUpdate
              end
  end.

(** The cells after the response has been parsed. *)
Definition finish (c : config) (net : remote) (results : json) (since : string) : M unit :=
  hits <- lift (Json.getitem results "hits") ;;
  print (ShowHits hits (ccid c) since) ;;;
  now <- utcnow ;;
  let timestamp := FORMAT now in
  show_first results ;;;
  downloads <- lift (downloads_of results) ;;
  download_loop c net downloads ;;;
  write_update results timestamp.

(** The world when the response arrives. *)
Definition at_response (c : config) (net : remote) (w : world) : world :=
  World (Some (default ∅ (fs w))) (returned_at c net w)
        (out w ++ [note c w; ShowUrl (asked c w)])
        (sent w ++ [Urlopen (asked c w)]).

(** The request one [urlretrieve] sends. *)
Definition req (c : config) (url : string) : request :=
  Urlretrieve url (data c ++ "/" ++ Py.basename url).

(** The requests the loop body sends for one element of [downloads]. *)
Definition request_of (c : config) (f : json) : list request :=
  match f with
  | JStr url => [req c url]
  | _ => []
  end.

(** The directory after a completed download of [url] with body [body]. *)
Definition store (d : gmap string string) (ub : string * string) : gmap string string :=
  <[Py.basename ub.1 := ub.2]> d.

(** The archive answered a request for [url] with the complete [body]. *)
Definition served (net : remote) (ub : string * string) : Prop :=
  ∃ t, fst (archive net t ub.1) = Complete ub.2.

(** [url] is one of the URLs the selection cell put in [downloads]. *)
Definition selected (results : json) (url : string) : Prop :=
  ∃ ds, downloads_of results = Ok ds ∧ JStr url ∈ ds.

(** The URLs of the catalog requests among the requests sent. *)
Fixpoint catalog_requests (l : list request) : list string :=
  match l with
  | [] => []
  | Urlopen url :: r => url :: catalog_requests r
  | Urlretrieve _ _ :: r => catalog_requests r
  end.

(** The run ended without exception on an answer that had items. *)
Definition advances (r : result unit) (a : reply) : bool :=
  match r, a with
  | Ok _, Body results => match has_items results with Ok true => true | _ => false end
  | _, _ => false
  end.

(** The related-links entry carries the "GET DATA" tag. *)
Definition is_get_data (u : json) : bool :=
  match Json.getitem u "Type" with
  | Ok t => Json.eq_str t "GET DATA"
  | Raise _ => false
  end.

(** A related link as the catalog schema has it: a type tag and a URL. *)
Definition well_formed_link (u : json) : Prop :=
  ∃ t x, Json.getitem u "Type" = Ok t ∧ Json.getitem u "URL" = Ok x.

(** [m] only adds to the printed lines. *)
Definition extends {A} (m : M A) : Prop :=
  ∀ w, ∃ rest, out (snd (m w)) = out w ++ rest.

(** ** Sequences of runs *)

(** One invocation: its parameters, the network it meets and the instant
    it starts.  Only the data directory is carried from run to run. *)
Record session := Session {
  conf : config;
  network : remote;
  start : Z;
}.

(** The world a run starts in. *)
Definition boot (s : session) (dir : option (gmap string string)) : world :=
  World dir (start s) [] [].

(** The run of one session on the directory it finds. *)
Definition run (s : session) (dir : option (gmap string string)) : result unit * world :=
  notebook (conf s) (network s) (boot s dir).

(** The contents of [.update] after each run of a sequence. *)
Fixpoint watermarks (ss : list session) (dir : option (gmap string string)) : list (option string) :=
  match ss with
  | [] => []
  | s :: rest => let w' := snd (run s dir) in watermark w' :: watermarks rest (fs w')
  end.

(** Timestamps in the fixed-width format compare as strings. *)
Definition ts_le (a b : string) : Prop := String.leb a b = true.

(** Order on what [.update] holds: an absent file is below everything. *)
Definition stored_le (a b : option string) : Prop :=
  match a, b with
  | None, _ => True
  | Some x, Some y => ts_le x y
  | Some _, None => False
  end.

(** Every run of the sequence ends without exception, and the instant at
    which its query returned is no earlier than the watermark it read. *)
Fixpoint all_succeed (ss : list session) (dir : option (gmap string string)) : Prop :=
  match ss with
  | [] => True
  | s :: rest =>
      fst (run s dir) = Ok tt ∧
      (∀ v, watermark (boot s dir) = Some v →
            ts_le v (FORMAT (returned_at (conf s) (network s) (boot s dir)))) ∧
      all_succeed rest (fs (snd (run s dir)))
  end.

(** Every run ends without exception, the instants at which the queries
    return are representable and never go back, starting from [t]. *)
Fixpoint clock_ordered (ss : list session) (dir : option (gmap string string)) (t : Z) : Prop :=
  match ss with
  | [] => True
  | s :: rest =>
      let t' := returned_at (conf s) (network s) (boot s dir) in
      fst (run s dir) = Ok tt ∧ t <= t' ∧ Datetime.representable t' ∧
      clock_ordered rest (fs (snd (run s dir))) t'
  end.

(** [.update] is absent or holds an instant printed no later than [t]. *)
Definition written_by (dir : option (gmap string string)) (t : Z) : Prop :=
  match stored dir with
  | None => True
  | Some v => ∃ t0, v = FORMAT t0 ∧ Datetime.representable t0 ∧ t0 <= t
  end.

(** ** The watermark read as the specification words it *)

Module Spec.

(** A parsed [YYYY-MM-DDThh:mm:ssZ] timestamp. *)
Record timestamp := Timestamp {
  year : Z; month : Z; day : Z; hour : Z; minute : Z; second : Z;
}.

Definition is_space (c : ascii) : bool :=
  let n := N_of_ascii c in
  (N.eqb n 32 || N.eqb n 9 || N.eqb n 10 || N.eqb n 11 || N.eqb n 12 || N.eqb n 13)%N.

Fixpoint ltrim (s : string) : string :=
  match s with
  | EmptyString => EmptyString
  | String c r => if is_space c then ltrim r else s
  end.

Fixpoint rtrim (s : string) : string :=
  match s with
  | EmptyString => EmptyString
  | String c r =>
      match rtrim r with
      | EmptyString => if is_space c then EmptyString else String c EmptyString
      | r' => String c r'
      end
  end.

Definition trim (s : string) : string := rtrim (ltrim s).

Fixpoint number (acc : Z) (s : string) : option Z :=
  match s with
  | EmptyString => Some acc
  | String c r =>
      let n := Z.of_N (N_of_ascii c) in
      if (48 <=? n) && (n <=? 57) then number (acc * 10 + (n - 48)) r else None
  end.

Definition field (from len : nat) (s : string) : option Z := number 0 (substring from len s).

Definition sep (at_ : nat) (c : string) (s : string) : bool := String.eqb (substring at_ 1 s) c.

Definition parse (s : string) : option timestamp :=
  if negb (Nat.eqb (String.length s) 20) then None
  else if negb (sep 4 "-" s && sep 7 "-" s && sep 10 "T" s
                && sep 13 ":" s && sep 16 ":" s && sep 19 "Z" s) then None
  else
    y ← field 0 4 s; m ← field 5 2 s; d ← field 8 2 s;
    h ← field 11 2 s; mi ← field 14 2 s; se ← field 17 2 s;
    if (1 <=? m) && (m <=? 12) && (1 <=? d) && (d <=? 31)
       && (h <? 24) && (mi <? 60) && (se <? 60)
    then Some (Timestamp y m d h mi se) else None.

(** The read operation as section 4.2 of the specification words it: the
    file's trimmed contents parsed as a timestamp, [None] standing for
    [CorruptWatermark]. *)
Definition read (contents : string) : option timestamp := parse (trim contents).

End Spec.

(** What section 4.2 says of a read that finds the file: the value
    obtained is the timestamp the trimmed contents denote, and the read
    fails when they denote none. *)
Definition read_as_specified (contents : string) (r : result string) : Prop :=
  match Spec.read contents with
  | Some t => ∃ s, r = Ok s ∧ Spec.parse s = Some t
  | None => ∃ e, r = Raise e
  end.

(** A data directory whose [.update] holds [contents]. *)
Definition holding (contents : string) : world :=
  World (Some {[ UPDATE := contents ]}) (1599065835 * 1000000) [] [].

(** ** Recorded and constructed runs *)

Module Demo.

Definition link (type url : string) : json :=
  JObj [("URL", JStr url); ("Type", JStr type); ("Description", JStr "Download")].

Definition granule (links : list json) : json :=
  JObj [("meta", JObj [("concept-type", JStr "granule")]);
        ("umm", JObj [("RelatedUrls", JArr links); ("GranuleUR", JStr "g")])].

Definition page (hits : Z) (items : list json) : json :=
  JObj [("hits", JNum hits); ("took", JNum 33); ("items", JArr items)].

Definition cfg : config := Config 20 "cmr.uat.earthdata.nasa.gov" "C1234724471-POCLOUD" "resources/nrt".

Definition u1 : string := "https://archive.podaac.uat.earthdata.nasa.gov/podaac-uat-cumulus-protected/MODIS_T-JPL-L2P-v2019.0/20041215200506-JPL-L2P_GHRSST-SSTskin-MODIS_T-N-v02.0-fv01.0.nc".
Definition u2 : string := "https://archive.podaac.uat.earthdata.nasa.gov/podaac-uat-cumulus-protected/MODIS_T-JPL-L2P-v2019.0/20041212075006-JPL-L2P_GHRSST-SSTskin-MODIS_T-N-v02.0-fv01.0.nc".

Definition g1 : json :=
  granule [link "EXTENDED METADATA" (u1 ++ ".md5"); link "GET DATA" u1;
           link "EXTENDED METADATA" "https://x/y.cmr.json";
           link "VIEW RELATED INFORMATION" "https://archive.podaac.uat.earthdata.nasa.gov/s3credentials"].
Definition g2 : json := granule [link "GET DATA" u2].

(** A record with two links tagged "GET DATA". *)
Definition three_links : list json :=
  [link "EXTENDED METADATA" "https://a/x.md5";
   link "GET DATA" "https://a/first.nc";
   link "GET DATA" "https://a/second.nc"].

(** The run recorded in the notebook: [.update] holds
    2020-09-02T16:46:32Z, two granules are new, both downloads succeed. *)
Definition net : remote :=
  Remote (fun _ _ => (Body (page 2 [g1; g2]), 2500000))
         (fun _ url => (Complete ("netcdf of " ++ url), 4000000)).

(** An answer whose first granule links to a file called [.update]; the
    archive serves that file and refuses every other one. *)
Definition shadow : string :=
  "https://archive.podaac.uat.earthdata.nasa.gov/podaac-uat-cumulus-protected/NRT/.update".

Definition shadowing : remote :=
  Remote (fun _ _ => (Body (page 2 [granule [link "GET DATA" shadow]; g2]), 2500000))
         (fun _ url => (if String.eqb url shadow then Complete "netcdf bytes" else Refused, 4000000)).

(** A later run that finds nothing new. *)
Definition quiet : remote :=
  Remote (fun _ _ => (Body (page 0 []), 1200000)) (fun _ _ => (Refused, 0)).

(** More hits than the page holds: the answer still carries two items. *)
Definition crowded : remote :=
  Remote (fun _ _ => (Body (page 5000 [g1; g2]), 2500000))
         (fun _ url => (Complete ("netcdf of " ++ url), 4000000)).

Definition dir0 : option (gmap string string) :=
  Some {[ UPDATE := "2020-09-02T16:46:32Z" ]}.

Definition two_runs : list session :=
  [ Session cfg net (1599065835 * 1000000 + 250000);
    Session cfg quiet (1599067200 * 1000000) ].

Definition w0 : world :=
  World (Some {[ UPDATE := "2020-09-02T16:46:32Z" ]}) (1599065835 * 1000000 + 250000) [] [].

End Demo.

(** ** The Earthdata Login cell

    [setup_earthdata_login_auth] acts on a state of its own: the netrc
    file of the user, what can still be read from standard input, what
    was written to standard output, and the opener that
    [urllib.request] has installed. *)

Module Auth.

(** What [netrc.netrc()] finds at [~/.netrc]: no file, a file it refuses
    (syntax, or access too permissive), or the entries by machine, each
    (login, account, password). *)
Inductive netrc :=
| NoFile
| Malformed
| Hosts (hosts : list (string * (string * string * string))).

Inductive error :=
| FileNotFoundError
| TypeError
| NetrcParseError
| EOFError.

Inductive outcome (T : Type) :=
| Done (x : T)
| Raised (e : error).
Arguments Done {T} x.
Arguments Raised {T} e.

(** An opener built by [build_opener(auth, processor)]: the entries of
    the password manager (realm, uri, user, password) and the cookies in
    the jar. *)
Record opener := Opener {
  passwords : list (option string * string * string * string);
  cookies : list string;
}.

Record console := Console {
  home : netrc;
  stdin : list string;
  stdout : list string;
  installed : option opener;
}.

Definition A (T : Type) : Type := console -> outcome T * console.

Definition ret {T} (x : T) : A T := fun s => (Done x, s).
Definition bind {T U} (m : A T) (k : T -> A U) : A U :=
  fun s => match m s with
           | (Done x, s') => k x s'
           | (Raised e, s') => (Raised e, s')
           end.

(** [try: m  except (FileNotFoundError, TypeError): h]. *)
Definition try_except {T} (m : A T) (h : A T) : A T :=
  fun s => match m s with
           | (Done x, s') => (Done x, s')
           | (Raised FileNotFoundError, s') => h s'
           | (Raised TypeError, s') => h s'
           | (Raised e, s') => (Raised e, s')
           end.

Fixpoint entry (host : string) (hosts : list (string * (string * string * string)))
  : option (string * string * string) :=
  match hosts with
  | [] => None
  | (h, e) :: r => if String.eqb host h then Some e else entry host r
  end.

(** [netrc.authenticators(host)]: the entry of the machine, else the
    [default] entry, else [None]. *)
Definition authenticators (hosts : list (string * (string * string * string))) (host : string)
  : option (string * string * string) :=
  match entry host hosts with
  | Some e => Some e
  | None => entry "default" hosts
  end.

(** [username, _, password = netrc.netrc().authenticators(endpoint)]:
    unpacking [None] is the [TypeError]. *)
Definition from_netrc (endpoint : string) : A (string * string) :=
  fun s => match home s with
           | NoFile => (Raised FileNotFoundError, s)
           | Malformed => (Raised NetrcParseError, s)
           | Hosts hosts =>
               match authenticators hosts endpoint with
               | Some (login, _, password) => (Done (login, password), s)
               | None => (Raised TypeError, s)
               end
           end.

Definition print (line : string) : A unit :=
  fun s => (Done tt, Console (home s) (stdin s) (stdout s ++ [line]) (installed s)).

Definition readline : A string :=
  fun s => match stdin s with
           | [] => (Raised EOFError, s)
           | l :: r => (Done l, Console (home s) r (stdout s) (installed s))
           end.

(** [input(prompt)]: the prompt goes to standard output. *)
Definition input (prompt : string) : A string :=
  bind (print prompt) (fun _ => readline).

(** [getpass.getpass()]: its prompt does not go to standard output. *)
Definition getpass : A string := readline.

(** [request.install_opener(opener)]. *)
Definition install_opener (o : opener) : A unit :=
  fun s => (Done tt, Console (home s) (stdin s) (stdout s) (Some o)).

Definition PLEASE : string :=
  "Please provide your Earthdata Login credentials to allow data access".

Definition ONLY (endpoint : string) : string :=
  "Your credentials will only be passed to " ++ endpoint
    ++ " and will not be exposed in Jupyter".

Definition ask (endpoint : string) : A (string * string) :=
  bind (print PLEASE) (fun _ =>
  bind (print (ONLY endpoint)) (fun _ =>
  bind (input "Username:") (fun username =>
  bind getpass (fun password =>
  ret (username, password))))).

Definition setup_earthdata_login_auth (endpoint : string) : A unit :=
  bind (try_except (from_netrc endpoint) (ask endpoint)) (fun up =>
  let manager := [(None, endpoint, fst up, snd up)] in
  let jar := [] in
  install_opener (Opener manager jar)).

End Auth.

(** ** Further quantities used in statements *)

(** How often [c] occurs in [s]. *)
Fixpoint occurrences (c : ascii) (s : string) : nat :=
  match s with
  | EmptyString => O
  | String d r => ((if Ascii.eqb c d then 1 else 0) + occurrences c r)%nat
  end.

(** The exception with which an answer ends the run before the selection
    cell, if it does: no response, no JSON, no [hits], no sized
    [items]. *)
Definition refusal (a : reply) : option exn :=
  match a with
  | NoReply => Some URLError
  | Garbled => Some JSONDecodeError
  | Body results =>
      match Json.getitem results "hits" with
      | Raise e => Some e
      | Ok _ => match has_items results with
                | Raise e => Some e
                | Ok _ => None
                end
      end
  end.

Module Cases.

(** The archive serves the first granule of the recorded run and refuses
    the second. *)
Definition flaky : remote :=
  Remote (fun _ _ => (Body (Demo.page 2 [Demo.g1; Demo.g2]), 2500000))
         (fun _ url => (if String.eqb url Demo.u1 then Complete "netcdf bytes" else Refused, 4000000)).

(** An answer without [hits]. *)
Definition hitless : remote :=
  Remote (fun _ _ => (Body (JObj [("items", JArr [Demo.g1])]), 2500000))
         (fun _ url => (Complete "netcdf bytes", 4000000)).

(** A netrc with one machine, and a console with two lines to read. *)
Definition one_machine : Auth.netrc :=
  Auth.Hosts [("uat.urs.earthdata.nasa.gov", ("alice", "", "s3cret"))].

Definition typing : Auth.console :=
  Auth.Console Auth.NoFile ["bob"; "hunter2"; "more"] [] None.

(** The netrc knows one machine only; two lines can be read. *)
Definition mixed : Auth.console :=
  Auth.Console one_machine ["bob"; "hunter2"] [] None.

(** Nothing to read, and an opener with a session cookie installed. *)
Definition silent : Auth.console :=
  Auth.Console Auth.NoFile [] [] (Some (Auth.Opener [] ["session=1"])).

End Cases.

(** ** The final path segment *)

Lemma basename_no_slash p : Py.contains "/" (Py.basename p) = false.
Proof.
  induction p as [|c r IH]; [reflexivity|]. cbn [Py.basename].
  destruct (Py.contains "/" r) eqn:Hr; [exact IH|].
  destruct (Ascii.eqb c "/") eqn:Hc; [exact Hr|].
  cbn [Py.contains]. rewrite Ascii.eqb_sym, Hc, Hr. reflexivity.
Qed.

(** [basename p] is what follows the last slash of [p]. *)
Lemma basename_suffix p :
  p = Py.basename p ∨ ∃ pre, p = String.append pre (String "/" (Py.basename p)).
Proof.
  induction p as [|c r IH]; [left; reflexivity|]. cbn [Py.basename].
  destruct (Py.contains "/" r) eqn:Hr.
  - right. destruct IH as [IH | [pre IH]].
    + rewrite IH, basename_no_slash in Hr. discriminate Hr.
    + exists (String c pre). rewrite IH at 1. reflexivity.
  - destruct (Ascii.eqb_spec c "/") as [->|Hc]; [|left; reflexivity].
    right. exists EmptyString. reflexivity.
Qed.

(** ** The timestamp format sorts chronologically *)

Module CalendarFacts.
Import Datetime Calendar.

Lemma ord2ymd_split n :
  ord2ymd n = let '(y, d, leap) := year_day n in
              let '(m, dd) := month_day d leap in (y, m, dd).
Proof.
  unfold ord2ymd, year_day, month_day. cbv zeta.
  destruct ((_ =? 4) || (_ =? 4)); [reflexivity|].
  destruct (_ <? _); reflexivity.
Qed.

Lemma md_increasing_spec k leap :
  md_increasing k leap = true →
  ∀ i, 0 <= i < Z.of_nat k → 0 < md_key i leap < md_key (i + 1) leap.
Proof.
  induction k as [|k IH]; intros H i Hi; [lia|].
  cbn [md_increasing] in H. apply andb_true_iff in H as [H1 H2].
  apply Z.ltb_lt in H1.
  destruct (Z.eq_dec i (Z.of_nat k)) as [->|Hne].
  - replace (Z.of_nat k + 1) with (Z.of_nat (S k)) by lia. split; [|exact H1].
    destruct k as [|k']; [apply Z.ltb_lt; exact H2|].
    specialize (IH H2 (Z.of_nat k') ltac:(lia)).
    replace (Z.of_nat k' + 1) with (Z.of_nat (S k')) in IH by lia. lia.
  - apply IH; [exact H2 | lia].
Qed.

Lemma month_day_increasing leap i :
  0 <= i < 364 + b2z leap → 0 < md_key i leap < md_key (i + 1) leap.
Proof.
  intros Hi. destruct leap; cbn [b2z] in Hi.
  - apply (md_increasing_spec 365 true); [vm_compute; reflexivity | lia].
  - apply (md_increasing_spec 364 false); [vm_compute; reflexivity | lia].
Qed.


Lemma digits_of x :
  digits x (x / 146097) (x mod 146097 / 36524) (x mod 146097 mod 36524 / 1461)
         (x mod 146097 mod 36524 mod 1461 / 365) (x mod 146097 mod 36524 mod 1461 mod 365).
Proof. split; Z.div_mod_to_equations; lia. Qed.

Lemma leap_digits q n100 n4 n1 :
  0 <= n100 <= 3 → 0 <= n4 <= 24 → 0 <= n1 <= 3 →
  is_leap (q * 400 + 1 + n100 * 100 + n4 * 4 + n1) =
  (n1 =? 3) && (negb (n4 =? 24) || (n100 =? 3)).
Proof.
  intros H100 H4 H1. unfold is_leap.
  set (y := q * 400 + 1 + n100 * 100 + n4 * 4 + n1).
  assert (E4 : y mod 4 = (n1 + 1) mod 4).
  { unfold y.
    replace (q * 400 + 1 + n100 * 100 + n4 * 4 + n1)
      with ((n1 + 1) + (q * 100 + n100 * 25 + n4) * 4) by lia.
    apply Z.mod_add. lia. }
  assert (E100 : y mod 100 = (n4 * 4 + n1 + 1) mod 100).
  { unfold y.
    replace (q * 400 + 1 + n100 * 100 + n4 * 4 + n1)
      with ((n4 * 4 + n1 + 1) + (q * 4 + n100) * 100) by lia.
    apply Z.mod_add. lia. }
  assert (E400 : y mod 400 = (n100 * 100 + n4 * 4 + n1 + 1) mod 400).
  { unfold y.
    replace (q * 400 + 1 + n100 * 100 + n4 * 4 + n1)
      with ((n100 * 100 + n4 * 4 + n1 + 1) + q * 400) by lia.
    apply Z.mod_add. lia. }
  rewrite E4, E100, E400.
  repeat match goal with
  | |- context [?a =? ?b] => destruct (Z.eqb_spec a b)
  end; cbn [andb orb negb]; try reflexivity; exfalso; Z.div_mod_to_equations; lia.
Qed.

Lemma days_before_year_digits q n100 n4 n1 :
  0 <= n100 <= 3 → 0 <= n4 <= 24 → 0 <= n1 <= 3 →
  days_before_year (q * 400 + 1 + n100 * 100 + n4 * 4 + n1) =
  146097 * q + 36524 * n100 + 1461 * n4 + 365 * n1.
Proof.
  intros H100 H4 H1. unfold days_before_year. cbv zeta.
  Z.div_mod_to_equations; lia.
Qed.

(** [year_day] inverts [days_before_year(y) + d + 1], which is
    [_ymd2ord] up to the month. *)
Lemma year_day_inverse n :
  let '(y, d, leap) := year_day n in
  n = days_before_year y + d + 1 ∧ 0 <= d <= 364 + b2z leap ∧ leap = is_leap y.
Proof.
  unfold year_day, DI400Y, DI100Y, DI4Y. cbv zeta.
  destruct (digits_of (n - 1)) as [Hsum H100 H4 H1 Hr E400 E4 E100].
  set (q := (n - 1) / 146097) in *.
  set (n100 := (n - 1) mod 146097 / 36524) in *.
  set (n4 := (n - 1) mod 146097 mod 36524 / 1461) in *.
  set (n1 := (n - 1) mod 146097 mod 36524 mod 1461 / 365) in *.
  set (r := (n - 1) mod 146097 mod 36524 mod 1461 mod 365) in *.
  clearbody q n100 n4 n1 r.
  destruct (Z.eqb_spec n100 4) as [->|N100].
  { destruct (E400 eq_refl) as (-> & -> & ->).
    rewrite orb_true_r.
    replace (q * 400 + 1 + 4 * 100 + 0 * 4 + 0 - 1) with (q * 400 + 1 + 3 * 100 + 24 * 4 + 3) by lia.
    rewrite days_before_year_digits, leap_digits by lia. cbn. split; [lia|]. split; [lia|reflexivity]. }
  destruct (Z.eqb_spec n1 4) as [->|N1]; cbn [orb].
  { specialize (E4 eq_refl). subst r.
    replace (q * 400 + 1 + n100 * 100 + n4 * 4 + 4 - 1) with (q * 400 + 1 + n100 * 100 + n4 * 4 + 3) by lia.
    rewrite days_before_year_digits, leap_digits by lia.
    assert (n4 ≠ 24) by (intros ->; specialize (E100 eq_refl); lia).
    destruct (Z.eqb_spec n4 24); [contradiction|]. cbn.
    split; [lia|]. split; [lia|reflexivity]. }
  rewrite days_before_year_digits, leap_digits by lia.
  split; [lia|]. split; [|reflexivity].
  destruct ((n1 =? 3) && _); cbn; lia.
Qed.

Lemma days_before_year_succ y :
  days_before_year (y + 1) = days_before_year y + 365 + b2z (is_leap y).
Proof.
  unfold days_before_year, is_leap. cbv zeta.
  replace (y + 1 - 1) with (y - 1 + 1) by lia.
  repeat match goal with
  | |- context [?a =? ?b] => destruct (Z.eqb_spec a b)
  end; cbn [andb orb negb b2z]; Z.div_mod_to_equations; lia.
Qed.

Lemma days_before_year_mono y k :
  0 <= k → days_before_year y + 365 * k <= days_before_year (y + k).
Proof.
  intros Hk. pattern k. apply natlike_ind; [| |exact Hk].
  - replace (y + 0) with y by lia. lia.
  - intros j Hj IH. replace (y + Z.succ j) with (y + j + 1) by lia.
    rewrite days_before_year_succ. destruct (is_leap (y + j)); cbn [b2z]; lia.
Qed.

(** Later ordinals have a later year, or the same year and a later day. *)
Lemma year_day_mono n n' :
  n < n' →
  let '(y, d, leap) := year_day n in
  let '(y', d', leap') := year_day n' in
  y < y' ∨ (y = y' ∧ leap = leap' ∧ d < d').
Proof.
  intros Hlt. pose proof (year_day_inverse n) as H. pose proof (year_day_inverse n') as H'.
  destruct (year_day n) as [[y d] leap]. destruct (year_day n') as [[y' d'] leap'].
  destruct H as (Hn & Hd & Hl). destruct H' as (Hn' & Hd' & Hl').
  destruct (Z.lt_trichotomy y y') as [Hy | [Hy | Hy]]; [left; exact Hy | right | exfalso].
  - subst y'. split; [reflexivity|]. split; [congruence | lia].
  - pose proof (days_before_year_mono (y' + 1) (y - (y' + 1)) ltac:(lia)) as Hm.
    replace (y' + 1 + (y - (y' + 1))) with y in Hm by lia.
    rewrite days_before_year_succ in Hm. rewrite <- Hl' in Hm. lia.
Qed.

Lemma md_key_mono leap : ∀ i j,
  0 <= i → i < j → j <= 364 + b2z leap → 0 < md_key i leap < md_key j leap.
Proof.
  intros i j Hi Hij Hj.
  assert (Hk : 0 <= j - i - 1) by lia.
  replace j with (i + 1 + (j - i - 1)) by lia.
  assert (Hb : i + 1 + (j - i - 1) <= 364 + b2z leap) by lia.
  revert Hk Hb. generalize (j - i - 1) as k. intros k Hk.
  pattern k. apply natlike_ind; [| |exact Hk].
  - intros Hb. rewrite Z.add_0_r. apply month_day_increasing. lia.
  - intros m Hm IH Hb. specialize (IH ltac:(lia)).
    pose proof (month_day_increasing leap (i + 1 + m) ltac:(lia)) as Hs.
    replace (i + 1 + Z.succ m) with (i + 1 + m + 1) by lia. lia.
Qed.


Lemma append_cons c s t : String.append (String c s) t = String c (String.append s t).
Proof. reflexivity. Qed.

Lemma append_nil t : String.append EmptyString t = t.
Proof. reflexivity. Qed.

Lemma compare_cons c c' s s' :
  String.compare (String c s) (String c' s') =
  match Ascii.compare c c' with Eq => String.compare s s' | o => o end.
Proof. reflexivity. Qed.

Lemma compare_same c s s' :
  String.compare (String c s) (String c s') = String.compare s s'.
Proof.
  rewrite compare_cons. unfold Ascii.compare. rewrite N.compare_refl. reflexivity.
Qed.

Lemma compare_digit a b : Ascii.compare (digit a) (digit b) = (a mod 10 ?= b mod 10).
Proof.
  unfold digit, Ascii.compare.
  pose proof (Z.mod_pos_bound a 10 ltac:(lia)). pose proof (Z.mod_pos_bound b 10 ltac:(lia)).
  rewrite !N_ascii_embedding by lia.
  rewrite Z2N.inj_compare by lia. apply Z.add_compare_mono_l.
Qed.

Lemma compare_lex B a b ra rb :
  0 <= ra < B → 0 <= rb < B →
  (a * B + ra ?= b * B + rb) = match a ?= b with Eq => ra ?= rb | o => o end.
Proof.
  intros Ha Hb. destruct (Z.compare_spec a b) as [->|Hlt|Hgt].
  - apply Z.add_compare_mono_l.
  - apply Z.compare_lt_iff. nia.
  - apply Z.compare_gt_iff. nia.
Qed.

Lemma compare_pad2 a b s s' :
  0 <= a < 100 → 0 <= b < 100 →
  String.compare (pad2 a ++ s) (pad2 b ++ s') =
  match a ?= b with Eq => String.compare s s' | o => o end.
Proof.
  intros Ha Hb. unfold pad2. rewrite ?append_cons, ?append_nil. rewrite !compare_cons, !compare_digit.
  rewrite (Z.mod_small (a / 10)), (Z.mod_small (b / 10)) by (Z.div_mod_to_equations; lia).
  replace (a ?= b) with (a / 10 * 10 + a mod 10 ?= b / 10 * 10 + b mod 10)
    by (f_equal; Z.div_mod_to_equations; lia).
  rewrite compare_lex by (apply Z.mod_pos_bound; lia).
  destruct (a / 10 ?= b / 10); [|reflexivity..].
  destruct (a mod 10 ?= b mod 10); reflexivity.
Qed.

Lemma digit_mod a b : a mod 10 = b mod 10 → digit a = digit b.
Proof. unfold digit. intros ->. reflexivity. Qed.

Lemma pad4_pad2 y s : (pad4 y ++ s = pad2 (y / 100) ++ pad2 (y mod 100) ++ s)%string.
Proof.
  unfold pad4, pad2. rewrite ?append_cons, ?append_nil.
  rewrite (digit_mod (y / 100 / 10) (y / 1000)) by (Z.div_mod_to_equations; lia).
  rewrite (digit_mod (y mod 100 / 10) (y / 10)) by (Z.div_mod_to_equations; lia).
  rewrite (digit_mod (y mod 100) y) by (Z.div_mod_to_equations; lia).
  reflexivity.
Qed.

Lemma compare_pad4 a b s s' :
  0 <= a < 10000 → 0 <= b < 10000 →
  String.compare (pad4 a ++ s) (pad4 b ++ s') =
  match a ?= b with Eq => String.compare s s' | o => o end.
Proof.
  intros Ha Hb. rewrite !pad4_pad2.
  rewrite !compare_pad2 by (Z.div_mod_to_equations; lia).
  replace (a ?= b) with (a / 100 * 100 + a mod 100 ?= b / 100 * 100 + b mod 100)
    by (f_equal; Z.div_mod_to_equations; lia).
  rewrite compare_lex by (apply Z.mod_pos_bound; lia).
  destruct (a / 100 ?= b / 100); [|reflexivity..].
  destruct (a mod 100 ?= b mod 100); reflexivity.
Qed.

Lemma compare_render y m d H M S y' m' d' H' M' S' :
  0 <= y < 10000 → 0 <= y' < 10000 →
  0 <= m < 100 → 0 <= m' < 100 → 0 <= d < 100 → 0 <= d' < 100 →
  0 <= H < 100 → 0 <= H' < 100 → 0 <= M < 100 → 0 <= M' < 100 →
  0 <= S < 100 → 0 <= S' < 100 →
  String.compare (render y m d H M S) (render y' m' d' H' M' S') =
  (key y m d H M S ?= key y' m' d' H' M' S').
Proof.
  intros. unfold render, key.
  rewrite !compare_lex by assumption.
  rewrite compare_pad4 by assumption. destruct (y ?= y'); [|reflexivity..].
  rewrite ?append_cons, ?append_nil. rewrite compare_same.
  rewrite compare_pad2 by assumption. destruct (m ?= m'); [|reflexivity..].
  rewrite ?append_cons, ?append_nil. rewrite compare_same.
  rewrite compare_pad2 by assumption. destruct (d ?= d'); [|reflexivity..].
  rewrite ?append_cons, ?append_nil. rewrite compare_same.
  rewrite compare_pad2 by assumption. destruct (H ?= H'); [|reflexivity..].
  rewrite ?append_cons, ?append_nil. rewrite compare_same.
  rewrite compare_pad2 by assumption. destruct (M ?= M'); [|reflexivity..].
  rewrite ?append_cons, ?append_nil. rewrite compare_same.
  rewrite compare_pad2 by assumption. destruct (S ?= S'); reflexivity.
Qed.


Lemma md_key_valid leap i :
  0 <= i <= 364 + b2z leap →
  let '(m, d) := month_day i leap in
  1 <= m <= 12 ∧ 1 <= d <= 31 ∧ md_key i leap = m * 100 + d.
Proof.
  intros Hi.
  assert (Hpos : 0 < md_key i leap).
  { destruct (Z.eq_dec i 0) as [->|Hne].
    - apply (month_day_increasing leap 0). destruct leap; cbn; lia.
    - pose proof (md_key_mono leap 0 i ltac:(lia) ltac:(lia) ltac:(lia)). lia. }
  unfold md_key in *. destruct (month_day i leap) as [m d].
  destruct ((1 <=? m) && (m <=? 12) && (1 <=? d) && (d <=? 31)) eqn:E; [|lia].
  rewrite !andb_true_iff, !Z.leb_le in E. lia.
Qed.

Lemma ord2ymd_valid n :
  1 <= n <= 3652059 →
  let '(y, m, d) := ord2ymd n in 1 <= y <= 9999 ∧ 1 <= m <= 12 ∧ 1 <= d <= 31.
Proof.
  intros Hn. rewrite ord2ymd_split. pose proof (year_day_inverse n) as H.
  destruct (year_day n) as [[y doy] leap]. destruct H as (Hy & Hd & Hl).
  pose proof (md_key_valid leap doy Hd) as Hmd.
  destruct (month_day doy leap) as [m d]. split; [|tauto].
  split.
  - destruct (Z.le_gt_cases 1 y) as [|Hlow]; [assumption|exfalso].
    pose proof (days_before_year_mono (y + 1) (1 - (y + 1)) ltac:(lia)) as Hm.
    replace (y + 1 + (1 - (y + 1))) with 1 in Hm by lia.
    rewrite days_before_year_succ, <- Hl in Hm. change (days_before_year 1) with 0 in Hm. lia.
  - destruct (Z.le_gt_cases y 9999) as [|Hhigh]; [assumption|exfalso].
    pose proof (days_before_year_mono 10000 (y - 10000) ltac:(lia)) as Hm.
    replace (10000 + (y - 10000)) with y in Hm by lia.
    change (days_before_year 10000) with 3652059 in Hm. lia.
Qed.

Lemma date_key_mono n n' : n < n' → date_key n < date_key n'.
Proof.
  intros Hlt. unfold date_key. rewrite !ord2ymd_split.
  pose proof (year_day_mono n n' Hlt) as Hmono.
  pose proof (year_day_inverse n) as H. pose proof (year_day_inverse n') as H'.
  destruct (year_day n) as [[y doy] leap]. destruct (year_day n') as [[y' doy'] leap'].
  destruct H as (_ & Hd & _). destruct H' as (_ & Hd' & _).
  pose proof (md_key_valid leap doy Hd) as Hv.
  pose proof (md_key_valid leap' doy' Hd') as Hv'.
  destruct Hmono as [Hy | (-> & -> & Hdd)].
  - destruct (month_day doy leap) as [m d]. destruct (month_day doy' leap') as [m' d']. lia.
  - pose proof (md_key_mono leap' doy doy' ltac:(lia) Hdd ltac:(lia)) as Hk.
    destruct (month_day doy leap') as [m d]. destruct (month_day doy' leap') as [m' d']. lia.
Qed.

Lemma isoformat_second_render s :
  isoformat_second s =
  let '(y, m, d) := ord2ymd (s / 86400 + EPOCH_ORDINAL) in
  render y m d (s mod 86400 / 3600) (s mod 86400 mod 3600 / 60) (s mod 86400 mod 60).
Proof. unfold isoformat_second, render. destruct (ord2ymd _) as [[y m] d]. reflexivity. Qed.

(** Within the range of [datetime] (years 1 to 9999), a later second
    never prints as a smaller string. *)
Lemma isoformat_second_mono s s' :
  1 <= s / 86400 + EPOCH_ORDINAL → s' / 86400 + EPOCH_ORDINAL <= 3652059 → s <= s' →
  String.leb (isoformat_second s) (isoformat_second s') = true.
Proof.
  intros Hlo Hhi Hle.
  assert (Hn : s / 86400 + EPOCH_ORDINAL <= s' / 86400 + EPOCH_ORDINAL).
  { pose proof (Z.div_le_mono s s' 86400 ltac:(lia) Hle). lia. }
  rewrite !isoformat_second_render.
  pose proof (ord2ymd_valid (s / 86400 + EPOCH_ORDINAL) ltac:(lia)) as Hv.
  pose proof (ord2ymd_valid (s' / 86400 + EPOCH_ORDINAL) ltac:(lia)) as Hv'.
  assert (Hkey : s / 86400 = s' / 86400 ∨
                 date_key (s / 86400 + EPOCH_ORDINAL) < date_key (s' / 86400 + EPOCH_ORDINAL)).
  { destruct (Z.eq_dec (s / 86400) (s' / 86400)); [left; assumption|].
    right. apply date_key_mono. lia. }
  unfold date_key in Hkey.
  assert (Hr : s / 86400 = s' / 86400 → s mod 86400 <= s' mod 86400).
  { intros E. rewrite !Z.mod_eq by lia. rewrite E. lia. }
  pose proof (Z.mod_pos_bound s 86400 ltac:(lia)) as Hb.
  pose proof (Z.mod_pos_bound s' 86400 ltac:(lia)) as Hb'.
  set (r := s mod 86400) in *. set (r' := s' mod 86400) in *. clearbody r r'.
  destruct Hkey as [E | Hkey].
  - rewrite <- E in *. destruct (ord2ymd (s / 86400 + EPOCH_ORDINAL)) as [[y m] d].
    specialize (Hr eq_refl).
    unfold String.leb. rewrite compare_render by (Z.div_mod_to_equations; lia).
    unfold key.
    destruct (Z.compare_spec
      (((((y * 100 + m) * 100 + d) * 100 + r / 3600) * 100 + r mod 3600 / 60) * 100 + r mod 60)
      (((((y * 100 + m) * 100 + d) * 100 + r' / 3600) * 100 + r' mod 3600 / 60) * 100 + r' mod 60))
      as [_|_|Hgt]; [reflexivity..|].
    exfalso. Z.div_mod_to_equations. lia.
  - destruct (ord2ymd (s / 86400 + EPOCH_ORDINAL)) as [[y m] d].
    destruct (ord2ymd (s' / 86400 + EPOCH_ORDINAL)) as [[y' m'] d'].
    unfold String.leb. rewrite compare_render by (Z.div_mod_to_equations; lia).
    unfold key.
    destruct (Z.compare_spec
      (((((y * 100 + m) * 100 + d) * 100 + r / 3600) * 100 + r mod 3600 / 60) * 100 + r mod 60)
      (((((y' * 100 + m') * 100 + d') * 100 + r' / 3600) * 100 + r' mod 3600 / 60) * 100 + r' mod 60))
      as [_|_|Hgt]; [reflexivity..|].
    exfalso. Z.div_mod_to_equations. lia.
Qed.

(** [strftime] is monotone on the instants [datetime] can represent. *)
Lemma strftime_mono t t' :
  representable t → representable t' → t <= t' →
  ts_le (strftime t) (strftime t').
Proof.
  unfold representable, MAXORDINAL. intros Hlo Hhi Hle.
  unfold ts_le, strftime. apply isoformat_second_mono; try lia.
  unfold whole_second, US_PER_SECOND. apply Z.div_le_mono; lia.
Qed.

End CalendarFacts.

(** ** Stage lemmas *)

Lemma read_update_run c ts w :
  read_update c ts w =
  (Ok (match watermark w with Some v => v | None => ts end),
   World (Some (default ∅ (fs w))) (clock w) (out w ++ [note c w]) (sent w)).
Proof.
  unfold read_update, watermark, note, bind, isdir, try_except, read_file, makedirs, print, ret.
  destruct w as [[d|] t o s]; simpl.
  - destruct (d !! UPDATE) as [v|]; reflexivity.
  - reflexivity.
Qed.

Lemma notebook_stages c net w :
  notebook c net w =
  match fst (answer c net w) with
  | NoReply => (Raise URLError, at_response c net w)
  | Garbled => (Raise JSONDecodeError, at_response c net w)
  | Body results => finish c net results (resolved c w) (at_response c net w)
  end.
Proof.
  unfold notebook, bind at 1. unfold default_timestamp, bind at 1.
  unfold utcnow at 1, ret at 1. unfold bind at 1. rewrite read_update_run.
  fold (default_of c w). fold (resolved c w). fold (asked c w).
  unfold bind at 1, print at 1. cbn [fs clock out sent].
  unfold bind at 1, request_results, bind at 1, urlopen_loads, bind at 1, utcnow at 1.
  cbn [fs clock out sent]. fold (answer c net w).
  unfold at_response, returned_at.
  destruct (answer c net w) as [r el]. cbn [fst snd].
  unfold bind at 1, send. cbn [fs clock out sent].
  rewrite <- app_assoc. cbn [app].
  destruct r; try reflexivity.
  unfold finish, bind, lift, print, utcnow, ret. cbn [fs clock out sent].
  destruct (Json.getitem v "hits"); reflexivity.
Qed.

(** ** The download loop in closed form *)

Lemma retrieve_cases c net f w d :
  fs w = Some d →
  match retrieve c net f w with
  | (Ok _, w') =>
      ∃ url body, f = JStr url ∧ served net (url, body) ∧
        fs w' = Some (store d (url, body)) ∧
        out w' = out w ∧ sent w' = sent w ++ [req c url]
  | (Raise e, w') =>
      out w' = out w ∧ sent w' = sent w ++ request_of c f ∧
      (fs w' = Some d ∨
       ∃ url partial, f = JStr url ∧ fs w' = Some (<[Py.basename url := partial]> d))
  end.
Proof.
  intros Hd. destruct w as [o t pr sn]. cbn [fs] in Hd. subst o.
  destruct f as [| b | n | url | l | kv];
    try (cbn; rewrite app_nil_r; auto).
  unfold retrieve, urlretrieve, bind, utcnow, send. cbn [fs clock out sent].
  destruct (archive net t url) as [r el] eqn:Har.
  destruct r as [| partial | body]; cbn [raise].
  - auto.
  - unfold write_file, raise. cbn [fs clock out sent request_of].
    destruct (names_directory (Py.basename url)); cbn [fs clock out sent]; eauto 8.
  - unfold write_file. cbn [fs clock out sent request_of].
    destruct (names_directory (Py.basename url)); cbn [fs clock out sent]; [auto|].
    exists url, body. repeat split; try reflexivity.
    exists t. cbn. rewrite Har. reflexivity.
Qed.

Lemma download_loop_cons c net f rest w :
  download_loop c net (f :: rest) w =
  match retrieve c net f w with
  | (Ok _, w') =>
      download_loop c net rest
        (World (fs w') (clock w') (out w' ++ [Success f]) (sent w'))
  | (Raise e, w') =>
      (Raise e, World (fs w') (clock w') (out w' ++ [Failure f e]) (sent w'))
  end.
Proof.
  cbn [download_loop]. unfold bind, try_except, print, raise.
  destruct (retrieve c net f w) as [[[]|e] w']; reflexivity.
Qed.

(** The loop completes a prefix of [downloads], in order; it stops at the
    first element that fails and deletes nothing. *)
Lemma download_loop_closed_form c net downloads : ∀ w d,
  fs w = Some d →
  ∃ done : list (string * string),
    Forall (served net) done ∧
    match download_loop c net downloads w with
    | (Ok _, w') =>
        downloads = map (λ ub, JStr ub.1) done ∧
        fs w' = Some (foldl store d done) ∧
        sent w' = sent w ++ map (λ ub, req c ub.1) done
    | (Raise e, w') =>
        ∃ f rest,
          downloads = map (λ ub, JStr ub.1) done ++ f :: rest ∧
          sent w' = sent w ++ map (λ ub, req c ub.1) done ++ request_of c f ∧
          (fs w' = Some (foldl store d done) ∨
           ∃ url partial, f = JStr url ∧
             fs w' = Some (<[Py.basename url := partial]> (foldl store d done)))
    end.
Proof.
  induction downloads as [|f rest IH]; intros w d Hd.
  - exists []. split; [constructor|]. cbn. rewrite app_nil_r. auto.
  - rewrite download_loop_cons.
    pose proof (retrieve_cases c net f w d Hd) as Hr.
    destruct (retrieve c net f w) as [[[]|e] w1].
    + destruct Hr as (url & body & -> & Hs & Hfs & Hout & Hsent).
      destruct (IH (World (fs w1) (clock w1) (out w1 ++ [Success (JStr url)]) (sent w1))
                  (store d (url, body)) Hfs) as (done & Hall & Hloop).
      exists ((url, body) :: done). split; [constructor; assumption|].
      destruct (download_loop c net rest _) as [[[]|e] w2].
      * destruct Hloop as (-> & Hfs2 & Hsent2). cbn [sent] in Hsent2.
        repeat split; [exact Hfs2|].
        rewrite Hsent2, Hsent, <- app_assoc. reflexivity.
      * destruct Hloop as (f & rest' & -> & Hsent2 & Hfs2). cbn [sent] in Hsent2.
        exists f, rest'. repeat split; [|exact Hfs2].
        rewrite Hsent2, Hsent, <- app_assoc. reflexivity.
    + destruct Hr as (Hout & Hsent & Hfs).
      exists []. split; [constructor|].
      exists f, rest. cbn [map foldl app fs sent]. auto.
Qed.

(** ** The cells after the response *)

Lemma show_first_run results w :
  match show_first results w with
  | (Ok _, w') =>
      (∃ b, has_items results = Ok b) ∧
      fs w' = fs w ∧ clock w' = clock w ∧ sent w' = sent w
  | (Raise e, w') => w' = w
  end.
Proof.
  unfold show_first, bind, lift, print, ret.
  destruct (has_items results) as [[|]|e]; eauto.
  destruct (Json.getitem results "items") as [items|e]; [|reflexivity].
  destruct (Json.first items) as [r|e]; [|reflexivity].
  cbn [fs clock sent]. eauto.
Qed.

Lemma write_update_run results ts w d :
  fs w = Some d →
  ∀ b, has_items results = Ok b →
  write_update results ts w =
  (Ok tt, World (Some (if b then <[UPDATE := ts]> d else d)) (clock w) (out w) (sent w)).
Proof.
  intros Hd b Hb. unfold write_update, bind, lift, write_file, ret.
  rewrite Hb. destruct w as [o t pr sn]. cbn [fs clock out sent] in *. subst o.
  destruct b; reflexivity.
Qed.

Lemma finish_run c net results since w d :
  fs w = Some d →
  ∃ done : list (string * string),
    Forall (served net) done ∧
    Forall (λ ub, selected results ub.1) done ∧
    match finish c net results since w with
    | (Ok _, w') =>
        ∃ b, has_items results = Ok b ∧
          downloads_of results = Ok (map (λ ub, JStr ub.1) done) ∧
          sent w' = sent w ++ map (λ ub, req c ub.1) done ∧
          fs w' = Some (if b then <[UPDATE := FORMAT (clock w)]> (foldl store d done)
                        else foldl store d done)
    | (Raise e, w') =>
        ∃ last : list string,
          (length last ≤ 1)%nat ∧ Forall (selected results) last ∧
          sent w' = sent w ++ map (λ ub, req c ub.1) done ++ map (req c) last ∧
          (fs w' = Some (foldl store d done) ∨
           ∃ url partial, last = [url] ∧
             fs w' = Some (<[Py.basename url := partial]> (foldl store d done)))
    end.
Proof.
  intros Hd.
  assert (Hnil : ∀ w', fs w' = Some d → sent w' = sent w →
    ∃ last : list string,
      (length last ≤ 1)%nat ∧ Forall (selected results) last ∧
      sent w' = sent w ++ map (λ ub : string * string, req c ub.1) [] ++ map (req c) last ∧
      (fs w' = Some (foldl store d []) ∨
       ∃ url partial, last = [url] ∧
         fs w' = Some (<[Py.basename url := partial]> (foldl store d [])))).
  { intros w' Hfs Hs. exists []. cbn. rewrite app_nil_r. repeat split; auto. }
  unfold finish, bind at 1, lift at 1.
  destruct (Json.getitem results "hits") as [hits|e];
    [|exists []; repeat split; try constructor; auto].
  unfold bind at 1, print at 1. unfold bind at 1, utcnow. cbn [clock].
  unfold bind at 1.
  set (w1 := World (fs w) (clock w) (out w ++ [ShowHits hits (ccid c) since]) (sent w)).
  pose proof (show_first_run results w1) as Hshow.
  destruct (show_first results w1) as [[[]|e] w2];
    [|subst w2; exists []; repeat split; try constructor; auto].
  destruct Hshow as ([b Hb] & Hfs2 & Hck2 & Hs2). cbn [fs clock sent w1] in *.
  unfold bind at 1, lift at 1.
  destruct (downloads_of results) as [ds|e] eqn:Hds;
    [|exists []; repeat split; try constructor; apply Hnil; congruence].
  assert (Hd2 : fs w2 = Some d) by congruence.
  destruct (download_loop_closed_form c net ds w2 d Hd2) as (done & Hserved & Hloop).
  unfold bind at 1.
  destruct (download_loop c net ds w2) as [[[]|e] w3].
  - destruct Hloop as (-> & Hfs3 & Hs3).
    exists done. split; [assumption|]. split.
    { apply Forall_forall. intros ub Hin. eexists.
      split; [exact Hds|]. apply list_elem_of_fmap. exists ub. auto. }
    rewrite (write_update_run results _ w3 _ Hfs3 b Hb). cbn [fs sent].
    exists b. repeat split; congruence.
  - destruct Hloop as (f & rest & -> & Hs3 & Hfs3).
    exists done. split; [assumption|]. split.
    { apply Forall_forall. intros ub Hin. eexists. split; [exact Hds|].
      apply elem_of_app. left. apply list_elem_of_fmap. exists ub. auto. }
    destruct f as [| b' | n | url | l | kv];
      try (exists []; cbn [request_of map length] in *;
           repeat split; [lia | constructor | congruence |];
           destruct Hfs3 as [Hfs3 | (url & partial & Hf & _)];
           [left; assumption | discriminate Hf]).
    exists [url]. cbn [request_of map length] in *.
    split; [lia|]. split.
    { constructor; [|constructor]. eexists. split; [exact Hds|].
      apply elem_of_app. right. apply list_elem_of_here. }
    split; [congruence|].
    destruct Hfs3 as [Hfs3 | (url' & partial & Hf & Hfs3)]; [left; assumption|].
    right. injection Hf as <-. eauto.
Qed.

(** ** Whole runs *)

Lemma catalog_requests_app l1 l2 :
  catalog_requests (l1 ++ l2) = catalog_requests l1 ++ catalog_requests l2.
Proof.
  induction l1 as [|[url|url file] l1 IH]; cbn; [reflexivity| |assumption].
  rewrite IH. reflexivity.
Qed.

Lemma catalog_requests_req c urls : catalog_requests (map (req c) urls) = [].
Proof. induction urls; cbn; auto. Qed.

(** Every run sends the catalog request first and then only downloads of
    URLs selected from the answer; the data directory exists afterwards. *)
Lemma notebook_sent c net w :
  ∃ urls : list string,
    sent (snd (notebook c net w)) = sent w ++ Urlopen (asked c w) :: map (req c) urls ∧
    Forall (λ url, ∃ results, fst (answer c net w) = Body results ∧ selected results url) urls ∧
    is_Some (fs (snd (notebook c net w))).
Proof.
  rewrite notebook_stages.
  destruct (fst (answer c net w)) as [| |results] eqn:Hans.
  - exists []. cbn [snd at_response sent fs map].
    split; [reflexivity|]. split; [constructor | eauto].
  - exists []. cbn [snd at_response sent fs map].
    split; [reflexivity|]. split; [constructor | eauto].
  - destruct (finish_run c net results (resolved c w) (at_response c net w)
                (default ∅ (fs w)) eq_refl) as (done & _ & Hsel & Hrun).
    destruct (finish c net results (resolved c w) (at_response c net w)) as [[[]|e] w'].
    + destruct Hrun as (b & _ & _ & Hsent & Hfs). cbn [snd sent at_response] in *.
      exists (map fst done). rewrite Hsent, <- app_assoc, map_map. cbn.
      split; [reflexivity|]. split; [|rewrite Hfs; eauto].
      apply Forall_fmap. eapply Forall_impl; [exact Hsel|]. cbn. eauto.
    + destruct Hrun as (last & _ & Hlast & Hsent & Hfs). cbn [snd sent at_response] in *.
      exists (map fst done ++ last).
      rewrite Hsent, <- app_assoc, map_app, map_map. cbn.
      split; [reflexivity|]. split.
      * apply Forall_app. split.
        -- apply Forall_fmap. eapply Forall_impl; [exact Hsel|]. cbn. eauto.
        -- eapply Forall_impl; [exact Hlast|]. cbn. eauto.
      * destruct Hfs as [-> | (? & ? & _ & ->)]; eauto.
Qed.

(** (C7) Every run builds one catalog query and sends it once: scroll
    enabled, page size 2000, newest start date first, the configured
    collection, the resolved watermark as [created_at] and the bounding
    box, URL-encoded after [https://{cmr}/search/granules.umm_json?]. *)
Theorem catalog_query_built_once c net w :
  params c (resolved c w) =
    [ ("scroll", Py.VStr "true"); ("page_size", Py.VInt 2000);
      ("sort_key", Py.VStr "-start_date");
      ("collection_concept_id", Py.VStr (ccid c));
      ("created_at", Py.VStr (resolved c w));
      ("bounding_box", Py.VStr "-146.5,57.5,-146,58") ] ∧
  asked c w =
    ("https://" ++ cmr c ++ "/search/granules.umm_json?"
     ++ "scroll=true&page_size=2000&sort_key=-start_date&collection_concept_id="
     ++ Py.quote_plus (ccid c)
     ++ "&created_at=" ++ Py.quote_plus (resolved c w)
     ++ "&bounding_box=-146.5%2C57.5%2C-146%2C58")%string ∧
  catalog_requests (sent (snd (notebook c net w))) =
    catalog_requests (sent w) ++ [asked c w].
Proof.
  split; [reflexivity|]. split; [reflexivity|].
  destruct (notebook_sent c net w) as (urls & -> & _).
  rewrite catalog_requests_app. cbn. rewrite catalog_requests_req. reflexivity.
Qed.

(** The URL the notebook printed in its recorded run. *)
Example recorded_url :
  asked Demo.cfg Demo.w0 =
  "https://cmr.uat.earthdata.nasa.gov/search/granules.umm_json?scroll=true&page_size=2000&sort_key=-start_date&collection_concept_id=C1234724471-POCLOUD&created_at=2020-09-02T16%3A46%3A32Z&bounding_box=-146.5%2C57.5%2C-146%2C58".
Proof. vm_compute. reflexivity. Qed.

Lemma selected_from_items results url :
  selected results url →
  ∃ items records ds,
    Json.getitem results "items" = Ok items ∧ Json.iter items = Ok records ∧
    select_all records = Ok ds ∧ JStr url ∈ ds.
Proof.
  intros (ds & Hds & Hin). unfold downloads_of in Hds.
  destruct (Json.getitem results "items") as [items|]; [|discriminate].
  destruct (Json.iter items) as [records|] eqn:Hit; [|discriminate].
  exists items, records, ds. auto.
Qed.

(** (C8) A run sends exactly one catalog request, and whatever it
    downloads was selected from the [items] of that one answer; the
    [hits] count plays no part. *)
Theorem single_page_only c net w :
  let w' := snd (notebook c net w) in
  catalog_requests (sent w') = catalog_requests (sent w) ++ [asked c w] ∧
  ∀ url file, Urlretrieve url file ∈ sent w' →
    Urlretrieve url file ∈ sent w ∨
    ∃ results items records ds,
      fst (answer c net w) = Body results ∧
      Json.getitem results "items" = Ok items ∧ Json.iter items = Ok records ∧
      select_all records = Ok ds ∧ JStr url ∈ ds.
Proof.
  cbn zeta. destruct (notebook_sent c net w) as (urls & -> & Hsel & _). split.
  - rewrite catalog_requests_app. cbn. rewrite catalog_requests_req. reflexivity.
  - intros url file Hin. apply elem_of_app in Hin as [Hin|Hin]; [left; assumption|].
    right. apply elem_of_cons in Hin as [Hin|Hin]; [discriminate|].
    apply list_elem_of_fmap in Hin as (url' & Heq & Hin). injection Heq as -> _.
    rewrite Forall_forall in Hsel. destruct (Hsel _ Hin) as (results & Hans & Hs).
    destruct (selected_from_items _ _ Hs) as (items & records & ds & ?).
    exists results, items, records, ds. tauto.
Qed.

(** With 5000 hits reported and two items on the page, the run sends one
    catalog request and downloads the two. *)
Example crowded_page :
  map (λ r, match r with Urlopen _ => "urlopen" | Urlretrieve url _ => url end)
      (sent (snd (notebook Demo.cfg Demo.crowded Demo.w0)))
  = ["urlopen"; Demo.u1; Demo.u2].
Proof. vm_compute. reflexivity. Qed.

(** The cells after the default timestamp only use [cmr], [ccid] and
    [data]. *)
Lemma download_loop_mins m1 m2 host id dir net downloads :
  download_loop (Config m1 host id dir) net downloads =
  download_loop (Config m2 host id dir) net downloads.
Proof. induction downloads as [|f rest IH]; cbn; [reflexivity|]. rewrite IH. reflexivity. Qed.

Lemma finish_mins m1 m2 host id dir net results since w :
  finish (Config m1 host id dir) net results since w =
  finish (Config m2 host id dir) net results since w.
Proof.
  unfold finish, bind. cbn [ccid].
  destruct (lift (Json.getitem results "hits") w) as [[hits|e] w1]; [|reflexivity].
  destruct (print _ w1) as [[[]|e] w2]; [|reflexivity].
  destruct (utcnow w2) as [[now|e] w3]; [|reflexivity].
  destruct (show_first results w3) as [[[]|e] w4]; [|reflexivity].
  destruct (lift (downloads_of results) w4) as [[ds|e] w5]; [|reflexivity].
  rewrite (download_loop_mins m1 m2). reflexivity.
Qed.



(** ** Printed lines are never taken back *)

Lemma extends_quiet {A} (m : M A) : (∀ w, out (snd (m w)) = out w) → extends m.
Proof. intros H w. exists []. rewrite app_nil_r. apply H. Qed.

Lemma extends_bind {A B} (m : M A) (k : A → M B) :
  extends m → (∀ a, extends (k a)) → extends (bind m k).
Proof.
  intros Hm Hk w. unfold bind. destruct (Hm w) as [r1 H1].
  destruct (m w) as [[a|e] w1]; cbn [snd] in *.
  - destruct (Hk a w1) as [r2 H2]. exists (r1 ++ r2). rewrite H2, H1, app_assoc. reflexivity.
  - eauto.
Qed.

Lemma extends_try {A B} (m : M A) catches (h : exn → M B) (k : A → M B) :
  extends m → (∀ e, extends (h e)) → (∀ a, extends (k a)) →
  extends (try_except m catches h k).
Proof.
  intros Hm Hh Hk w. unfold try_except. destruct (Hm w) as [r1 H1].
  destruct (m w) as [[a|e] w1]; cbn [snd] in *.
  - destruct (Hk a w1) as [r2 H2]. exists (r1 ++ r2). rewrite H2, H1, app_assoc. reflexivity.
  - destruct (catches e); [|eauto].
    destruct (Hh e w1) as [r2 H2]. exists (r1 ++ r2). rewrite H2, H1, app_assoc. reflexivity.
Qed.

Lemma extends_print l : extends (print l).
Proof. intros w. exists [l]. reflexivity. Qed.

Lemma extends_lift {A} (r : result A) : extends (lift r).
Proof. apply extends_quiet. reflexivity. Qed.

Lemma extends_ret {A} (a : A) : extends (ret a).
Proof. apply extends_quiet. reflexivity. Qed.

Lemma extends_raise {A} e : extends (@raise A e).
Proof. apply extends_quiet. reflexivity. Qed.

Lemma extends_utcnow : extends utcnow.
Proof. apply extends_quiet. reflexivity. Qed.

Lemma extends_write_file name s : extends (write_file name s).
Proof.
  apply extends_quiet. intros w. unfold write_file.
  destruct (fs w); [destruct (names_directory name)|]; reflexivity.
Qed.

Lemma extends_retrieve c net f : extends (retrieve c net f).
Proof.
  destruct f; try apply extends_raise. unfold retrieve, urlretrieve.
  apply extends_bind; [apply extends_utcnow|]. intros now.
  destruct (archive net now s) as [r el].
  apply extends_bind; [apply extends_quiet; reflexivity|]. intros _.
  destruct r.
  - apply extends_raise.
  - apply extends_bind; [apply extends_write_file | intros; apply extends_raise].
  - apply extends_write_file.
Qed.

Lemma extends_download_loop c net downloads : extends (download_loop c net downloads).
Proof.
  induction downloads as [|f rest IH]; cbn [download_loop]; [apply extends_ret|].
  apply extends_bind; [|intros; exact IH].
  apply extends_try; [apply extends_retrieve | | intros; apply extends_print].
  intros e. apply extends_bind; [apply extends_print | intros; apply extends_raise].
Qed.

Lemma extends_finish c net results since : extends (finish c net results since).
Proof.
  unfold finish.
  apply extends_bind; [apply extends_lift|]. intros hits.
  apply extends_bind; [apply extends_print|]. intros _.
  apply extends_bind; [apply extends_utcnow|]. intros now.
  apply extends_bind.
  { unfold show_first. apply extends_bind; [apply extends_lift|]. intros [|]; [|apply extends_ret].
    apply extends_bind; [apply extends_lift|]. intros items.
    apply extends_bind; [apply extends_lift|]. intros r. apply extends_print. }
  intros _. apply extends_bind; [apply extends_lift|]. intros ds.
  apply extends_bind; [apply extends_download_loop|]. intros _.
  unfold write_update. apply extends_bind; [apply extends_lift|].
  intros [|]; [apply extends_write_file | apply extends_ret].
Qed.

(** Every run prints the line of the [.update] cell and the query URL
    first. *)
Lemma notebook_out c net w :
  ∃ rest, out (snd (notebook c net w)) = out w ++ note c w :: ShowUrl (asked c w) :: rest.
Proof.
  rewrite notebook_stages.
  destruct (fst (answer c net w)) as [| |results];
    try (exists []; cbn [snd at_response out]; reflexivity).
  destruct (extends_finish c net results (resolved c w) (at_response c net w)) as [rest ->].
  exists rest. cbn [at_response out]. rewrite <- app_assoc. reflexivity.
Qed.



(** ** Reading the watermark *)





(** ** Successful runs *)

Lemma no_items_no_downloads results ds :
  has_items results = Ok false → downloads_of results = Ok ds → ds = [].
Proof.
  unfold has_items, downloads_of.
  destruct (Json.getitem results "items") as [items|]; [|discriminate].
  destruct items as [| | | s | l | kv]; cbn; try discriminate.
  - destruct s; cbn; [|discriminate]. intros _ H. injection H as <-. reflexivity.
  - destruct l; cbn; [|discriminate]. intros _ H. injection H as <-. reflexivity.
  - destruct kv; cbn; [|discriminate]. intros _ H. injection H as <-. reflexivity.
Qed.

Lemma watermark_default w : (default ∅ (fs w) : gmap string string) !! UPDATE = watermark w.
Proof. unfold watermark. destruct (fs w); reflexivity. Qed.

(** A run that ends without exception got an answer, selected [done] and
    completed every download; it wrote [.update] iff there were items. *)
Lemma notebook_ok c net w w' :
  notebook c net w = (Ok tt, w') →
  ∃ results b done,
    fst (answer c net w) = Body results ∧ has_items results = Ok b ∧
    downloads_of results = Ok (map (λ ub, JStr ub.1) done) ∧
    Forall (served net) done ∧
    fs w' = Some (if b then <[UPDATE := FORMAT (returned_at c net w)]>
                              (foldl store (default ∅ (fs w)) done)
                  else default ∅ (fs w)).
Proof.
  rewrite notebook_stages.
  destruct (fst (answer c net w)) as [| |results]; try discriminate.
  intros Hrun.
  destruct (finish_run c net results (resolved c w) (at_response c net w)
              (default ∅ (fs w)) eq_refl) as (done & Hserved & _ & H).
  rewrite Hrun in H. destruct H as (b & Hb & Hds & _ & Hfs). cbn [at_response clock] in Hfs.
  exists results, b, done. repeat split; try assumption.
  destruct b; [exact Hfs|].
  apply (no_items_no_downloads _ _ Hb) in Hds.
  destruct done; [exact Hfs | discriminate Hds].
Qed.

(** (C3) The timestamp a successful run leaves in [.update] is the UTC
    instant at which [urlopen] returned the answer (the clock when the
    query was sent plus the time the query took), formatted; a successful
    run without items leaves the file as it was. *)
Theorem candidate_timestamp c net w w' :
  notebook c net w = (Ok tt, w') →
  ∃ results b,
    fst (answer c net w) = Body results ∧ has_items results = Ok b ∧
    returned_at c net w = clock w + snd (search net (clock w) (asked c w)) ∧
    watermark w' = if b then Some (FORMAT (returned_at c net w)) else watermark w.
Proof.
  intros Hrun. destruct (notebook_ok c net w w' Hrun) as (results & b & done & Ha & Hb & _ & _ & Hfs).
  exists results, b. repeat split; try assumption.
  unfold watermark at 1. rewrite Hfs. cbn.
  destruct b; [apply lookup_insert_eq | apply watermark_default].
Qed.

Lemma candidate_timestamp_witness :
  notebook Demo.cfg Demo.net Demo.w0 = (Ok tt, snd (notebook Demo.cfg Demo.net Demo.w0)) ∧
  watermark (snd (notebook Demo.cfg Demo.net Demo.w0)) = Some "2020-09-02T16:57:17Z".
Proof.
  assert (H : notebook Demo.cfg Demo.net Demo.w0 = (Ok tt, snd (notebook Demo.cfg Demo.net Demo.w0))).
  { vm_compute. reflexivity. }
  split; [exact H|].
  destruct (candidate_timestamp Demo.cfg Demo.net Demo.w0 _ H) as (results & b & Ha & Hb & _ & Hw).
  vm_compute in Ha. injection Ha as <-. vm_compute in Hb. injection Hb as <-.
  rewrite Hw. vm_compute. reflexivity.
Defined.

(** The run recorded in the notebook, end to end: both granules are
    downloaded under their base names and [.update] holds the capture
    timestamp, later than the one it held. *)
Example recorded_run :
  let '(r, w') := notebook Demo.cfg Demo.net Demo.w0 in
  r = Ok tt ∧
  (map_to_list <$> fs w') =
    Some [ (".update", "2020-09-02T16:57:17Z");
           ("20041215200506-JPL-L2P_GHRSST-SSTskin-MODIS_T-N-v02.0-fv01.0.nc",
            "netcdf of " ++ Demo.u1);
           ("20041212075006-JPL-L2P_GHRSST-SSTskin-MODIS_T-N-v02.0-fv01.0.nc",
            "netcdf of " ++ Demo.u2) ]%string ∧
  String.ltb "2020-09-02T16:46:32Z" "2020-09-02T16:57:17Z" = true.
Proof. vm_compute. repeat split; reflexivity. Qed.

(** In the recorded run the query is sent at 16:57:15, returns at
    16:57:17 and the downloads end at 16:57:25: the file holds the middle
    one. *)
Example capture_is_neither_start_nor_end :
  let w' := snd (notebook Demo.cfg Demo.net Demo.w0) in
  FORMAT (clock Demo.w0) = "2020-09-02T16:57:15Z" ∧
  watermark w' = Some "2020-09-02T16:57:17Z" ∧
  FORMAT (clock w') = "2020-09-02T16:57:25Z".
Proof. vm_compute. repeat split; reflexivity. Qed.

(** ** Sequences of runs *)

Lemma ts_le_refl a : ts_le a a.
Proof. unfold ts_le. destruct (String.leb_total a a); assumption. Qed.

Lemma stored_le_refl a : stored_le a a.
Proof. destruct a; cbn; [apply ts_le_refl | exact I]. Qed.

(** What a successful run leaves in [.update]. *)
Lemma notebook_ok_watermark c net w w' :
  notebook c net w = (Ok tt, w') →
  ∃ b : bool,
    watermark w' = if b then Some (FORMAT (returned_at c net w)) else watermark w.
Proof.
  intros Hrun.
  destruct (notebook_ok c net w w' Hrun) as (results & b & done & _ & _ & _ & _ & Hfs).
  exists b. unfold watermark at 1, stored. rewrite Hfs. cbn.
  destruct b; [apply lookup_insert_eq | apply watermark_default].
Qed.

(** One successful run never lowers the watermark. *)
Lemma run_monotone c net w w' :
  notebook c net w = (Ok tt, w') →
  (∀ v, watermark w = Some v → ts_le v (FORMAT (returned_at c net w))) →
  stored_le (watermark w) (watermark w').
Proof.
  intros Hrun Hcap. destruct (notebook_ok_watermark c net w w' Hrun) as [b ->].
  destruct b; [|apply stored_le_refl].
  destruct (watermark w) as [v|]; cbn; auto.
Qed.

(** (C2) Across a sequence of successful runs, each capturing its
    timestamp no earlier than the watermark it read, the value in
    [.update] after run k+1 is at least the value after run k; the first
    run does not lower the initial value either. *)
Theorem watermark_monotone ss :
  ∀ dir k a b,
    all_succeed ss dir →
    (stored dir :: watermarks ss dir) !! k = Some a →
    (stored dir :: watermarks ss dir) !! S k = Some b →
    stored_le a b.
Proof.
  induction ss as [|s rest IH]; intros dir k a b Hall Ha Hb.
  - destruct k; discriminate Hb.
  - destruct Hall as (Hok & Hcap & Hrest). cbn [watermarks] in *.
    unfold run in *. destruct (notebook _ _ _) as [r w'] eqn:Hrun.
    cbn [fst snd] in *. subst r.
    destruct k as [|k].
    + change (Some (stored dir) = Some a) in Ha.
      change (Some (watermark w') = Some b) in Hb.
      injection Ha as <-. injection Hb as <-.
      exact (run_monotone _ _ _ _ Hrun Hcap).
    + change ((stored (fs w') :: watermarks rest (fs w')) !! k = Some a) in Ha.
      change ((stored (fs w') :: watermarks rest (fs w')) !! S k = Some b) in Hb.
      exact (IH _ k a b Hrest Ha Hb).
Qed.

Lemma watermark_monotone_witness :
  all_succeed Demo.two_runs Demo.dir0 ∧
  stored_le (Some "2020-09-02T16:46:32Z") (Some "2020-09-02T16:57:17Z") ∧
  stored_le (Some "2020-09-02T16:57:17Z") (Some "2020-09-02T16:57:17Z").
Proof.
  assert (H : all_succeed Demo.two_runs Demo.dir0).
  { split; [vm_compute; reflexivity|]. split.
    { intros v Hv. vm_compute in Hv. injection Hv as <-. vm_compute. reflexivity. }
    split; [vm_compute; reflexivity|]. split; [|exact I].
    intros v Hv. vm_compute in Hv. injection Hv as <-. vm_compute. reflexivity. }
  split; [exact H|]. split.
  - refine (watermark_monotone Demo.two_runs Demo.dir0 0%nat _ _ H _ _);
      vm_compute; reflexivity.
  - refine (watermark_monotone Demo.two_runs Demo.dir0 1%nat _ _ H _ _);
      vm_compute; reflexivity.
Defined.

(** When the clock never goes back from one query to the next, the
    condition on the capture instants holds by itself, the printed
    timestamps sorting as the instants do: such a sequence of runs
    satisfies [all_succeed]. *)
Lemma clock_ordered_all_succeed ss :
  ∀ dir t, written_by dir t → clock_ordered ss dir t → all_succeed ss dir.
Proof.
  induction ss as [|s rest IH]; intros dir t Hw Hord; [exact I|].
  destruct Hord as (Hok & Hle & Hrep & Hrest). cbn [all_succeed].
  split; [exact Hok|]. split.
  - intros v Hv. unfold written_by in Hw.
    change (stored dir = Some v) in Hv. rewrite Hv in Hw.
    destruct Hw as (t0 & -> & Hrep0 & Hle0).
    apply CalendarFacts.strftime_mono; [assumption..|lia].
  - refine (IH _ _ _ Hrest). unfold run in *.
    destruct (notebook (conf s) (network s) (boot s dir)) as [r w'] eqn:Hrun.
    cbn [fst snd] in *. subst r.
    destruct (notebook_ok_watermark _ _ _ _ Hrun) as [b Hb].
    unfold written_by. change (stored (fs w')) with (watermark w'). rewrite Hb.
    destruct b.
    + eexists. split; [reflexivity|]. split; [assumption|lia].
    + change (watermark (boot s dir)) with (stored dir).
      unfold written_by in Hw. destruct (stored dir) as [v|]; [|exact I].
      destruct Hw as (t0 & -> & Hrep0 & Hle0). exists t0.
      split; [reflexivity|]. split; [exact Hrep0 | lia].
Qed.

(** ** Selecting the download link *)

Lemma get_data_urls_head links :
  Forall well_formed_link links →
  match get_data_urls links with
  | Ok [] => find is_get_data links = None
  | Ok (x :: _) => ∃ u, find is_get_data links = Some u ∧ Json.getitem u "URL" = Ok x
  | Raise _ => False
  end.
Proof.
  induction 1 as [|u links (t & x & Ht & Hx) _ IH]; [reflexivity|].
  cbn [get_data_urls find]. unfold is_get_data at 1 3. rewrite Ht.
  destruct (Json.eq_str t "GET DATA").
  - rewrite Hx. destruct (get_data_urls links) as [xs|e]; [|contradiction]. eauto.
  - exact IH.
Qed.

Lemma select_all_fails records r e :
  r ∈ records → select r = Raise e → ∃ e', select_all records = Raise e'.
Proof.
  induction 1 as [r records | r r' records Hin IH]; intros Hr; cbn [select_all].
  - rewrite Hr. eauto.
  - destruct (select r'); [|eauto]. destruct (IH Hr) as [e' ->]. eauto.
Qed.

(** Whenever the selection cell raises, the run ends there: nothing is
    downloaded and the data directory is as the [.update] cell left it. *)
Lemma selection_failure_aborts c net w results e :
  fst (answer c net w) = Body results →
  downloads_of results = Raise e →
  (∃ e', fst (notebook c net w) = Raise e') ∧
  sent (snd (notebook c net w)) = sent w ++ [Urlopen (asked c w)] ∧
  fs (snd (notebook c net w)) = Some (default ∅ (fs w)).
Proof.
  intros Ha Hds. rewrite notebook_stages, Ha.
  destruct (finish_run c net results (resolved c w) (at_response c net w)
              (default ∅ (fs w)) eq_refl) as (done & _ & Hsel & H).
  assert (Hnone : ∀ url, ¬ selected results url).
  { intros url (ds & Hok & _). congruence. }
  assert (done = []) as ->.
  { destruct done as [|ub done]; [reflexivity|].
    apply Forall_cons in Hsel as [Hs _]. destruct (Hnone _ Hs). }
  destruct (finish c net results (resolved c w) (at_response c net w)) as [[[]|e'] w'].
  - destruct H as (b & _ & Hok & _). congruence.
  - destruct H as (last & _ & Hlast & Hsent & Hfs).
    assert (last = []) as ->.
    { destruct last as [|url last]; [reflexivity|].
      apply Forall_cons in Hlast as [Hs _]. destruct (Hnone _ Hs). }
    cbn [fst snd map foldl at_response sent] in *. rewrite app_nil_r in Hsent.
    split; [eauto|]. split; [exact Hsent|].
    destruct Hfs as [Hfs | (url & partial & Hl & _)]; [exact Hfs | discriminate Hl].
Qed.

(** (C6) For a granule record whose related links each carry a type tag
    and a URL, the selector yields the URL of the first link tagged
    "GET DATA" in list order and raises [IndexError] when there is none;
    a record of the answer for which the selector raises ends the run
    before anything is downloaded, [.update] untouched. *)
Theorem select_first_get_data r umm links :
  Json.getitem r "umm" = Ok umm →
  Json.getitem umm "RelatedUrls" = Ok (JArr links) →
  Forall well_formed_link links →
  select r = match find is_get_data links with
             | Some u => Json.getitem u "URL"
             | None => Raise IndexError
             end ∧
  ∀ c net w results records e,
    fst (answer c net w) = Body results →
    Json.getitem results "items" = Ok (JArr records) →
    r ∈ records → select r = Raise e →
    (∃ e', fst (notebook c net w) = Raise e') ∧
    sent (snd (notebook c net w)) = sent w ++ [Urlopen (asked c w)] ∧
    watermark (snd (notebook c net w)) = watermark w.
Proof.
  intros Humm Hrel Hwf. split.
  - unfold select. rewrite Humm, Hrel. cbn [Json.iter].
    pose proof (get_data_urls_head links Hwf) as H.
    destruct (get_data_urls links) as [[|x xs]|e]; [| |contradiction].
    + rewrite H. reflexivity.
    + destruct H as (u & -> & ->). reflexivity.
  - intros c net w results records e Ha Hitems Hin Hr.
    destruct (select_all_fails records r e Hin Hr) as [e' He'].
    assert (Hds : downloads_of results = Raise e').
    { unfold downloads_of. rewrite Hitems. cbn [Json.iter]. exact He'. }
    destruct (selection_failure_aborts c net w results e' Ha Hds) as (Hr' & Hsent & Hfs).
    split; [exact Hr'|]. split; [exact Hsent|].
    unfold watermark at 1. rewrite Hfs. apply watermark_default.
Qed.

Lemma select_first_get_data_witness :
  Forall well_formed_link Demo.three_links ∧
  select (Demo.granule Demo.three_links) = Ok (JStr "https://a/first.nc").
Proof.
  assert (H : Forall well_formed_link Demo.three_links).
  { repeat constructor; eexists _, _; split; reflexivity. }
  split; [exact H|].
  exact (proj1 (select_first_get_data (Demo.granule Demo.three_links)
                  (JObj [("RelatedUrls", JArr Demo.three_links); ("GranuleUR", JStr "g")])
                  Demo.three_links eq_refl eq_refl H)).
Defined.

(** ** The download loop *)

Lemma foldl_store_keeps done : ∀ (d : gmap string string) name,
  is_Some (d !! name) ∨ name ∈ map (λ ub : string * string, Py.basename ub.1) done →
  is_Some (foldl store d done !! name).
Proof.
  induction done as [|ub done IH]; intros d name [H|H]; cbn [foldl map] in *.
  - exact H.
  - inversion H.
  - apply IH. left. unfold store. destruct (decide (Py.basename ub.1 = name)) as [->|Hne].
    + rewrite lookup_insert_eq. eauto.
    + rewrite lookup_insert_ne by exact Hne. exact H.
  - apply elem_of_cons in H as [->|H]; [|apply IH; right; exact H].
    apply IH. left. unfold store. rewrite lookup_insert_eq. eauto.
Qed.



(** ** When [.update] changes *)

Lemma foldl_store_other name done : ∀ d : gmap string string,
  Forall (λ ub : string * string, Py.basename ub.1 ≠ name) done →
  foldl store d done !! name = d !! name.
Proof.
  induction done as [|ub done IH]; intros d Hall; [reflexivity|].
  apply Forall_cons in Hall as [Hne Hall]. cbn [foldl]. rewrite (IH _ Hall).
  unfold store. apply lookup_insert_ne. exact Hne.
Qed.

(** (X1) As long as no selected URL ends in [/.update], a run overwrites
    [.update] with the captured timestamp when it ends without exception
    on an answer with items, and leaves the file exactly as it was in
    every other case. *)
Lemma watermark_guard_without_collision c net w :
  (∀ results url, fst (answer c net w) = Body results → selected results url →
                  Py.basename url ≠ UPDATE) →
  watermark (snd (notebook c net w)) =
    if advances (fst (notebook c net w)) (fst (answer c net w))
    then Some (FORMAT (returned_at c net w))
    else watermark w.
Proof.
  intros Hfree. rewrite notebook_stages.
  destruct (fst (answer c net w)) as [| |results] eqn:Ha;
    try (cbn [fst snd advances]; unfold watermark at 1; cbn [at_response fs];
         apply watermark_default).
  specialize (Hfree results).
  destruct (finish_run c net results (resolved c w) (at_response c net w)
              (default ∅ (fs w)) eq_refl) as (done & _ & Hsel & H).
  assert (Hdone : Forall (λ ub : string * string, Py.basename ub.1 ≠ UPDATE) done).
  { eapply Forall_impl; [exact Hsel|]. cbn. intros ub Hs. apply Hfree; [reflexivity | exact Hs]. }
  destruct (finish c net results (resolved c w) (at_response c net w)) as [[[]|e] w'];
    cbn [fst snd advances].
  - destruct H as (b & -> & _ & _ & Hfs). unfold watermark at 1. rewrite Hfs. cbn.
    destruct b; [apply lookup_insert_eq|].
    rewrite (foldl_store_other _ _ _ Hdone). apply watermark_default.
  - destruct H as (last & _ & Hlast & _ & [Hfs | (url & partial & -> & Hfs)]);
      unfold watermark at 1; rewrite Hfs; cbn.
    + rewrite (foldl_store_other _ _ _ Hdone). apply watermark_default.
    + apply Forall_cons in Hlast as [Hs _].
      rewrite lookup_insert_ne by (apply Hfree; [reflexivity | exact Hs]).
      rewrite (foldl_store_other _ _ _ Hdone). apply watermark_default.
Qed.

(** (C1) A run in which the first download is of a file called [.update]
    and the second download fails: the run ends with the exception of the
    failed download, yet [.update] no longer holds the timestamp it held
    before the run but the body of the first download. *)
Theorem failed_run_overwrites_watermark :
  watermark Demo.w0 = Some "2020-09-02T16:46:32Z" ∧
  fst (notebook Demo.cfg Demo.shadowing Demo.w0) = Raise URLError ∧
  advances (fst (notebook Demo.cfg Demo.shadowing Demo.w0))
           (fst (answer Demo.cfg Demo.shadowing Demo.w0)) = false ∧
  watermark (snd (notebook Demo.cfg Demo.shadowing Demo.w0)) = Some "netcdf bytes".
Proof. vm_compute. repeat split; reflexivity. Qed.

(** * Further properties of the workflow cells *)

Lemma watermark_guard_without_collision_witness :
  (∀ results url, fst (answer Demo.cfg Cases.flaky Demo.w0) = Body results →
                  selected results url → Py.basename url ≠ UPDATE) ∧
  watermark (snd (notebook Demo.cfg Cases.flaky Demo.w0)) = Some "2020-09-02T16:46:32Z".
Proof.
  assert (H : ∀ results url, fst (answer Demo.cfg Cases.flaky Demo.w0) = Body results →
                             selected results url → Py.basename url ≠ UPDATE).
  { intros results url Ha (ds & Hds & Hin). vm_compute in Ha. injection Ha as <-.
    vm_compute in Hds. injection Hds as <-.
    apply elem_of_cons in Hin as [Hu|Hin]; [injection Hu as ->; vm_compute; discriminate|].
    apply elem_of_cons in Hin as [Hu|Hin]; [injection Hu as ->; vm_compute; discriminate|].
    inversion Hin. }
  split; [exact H|].
  rewrite (watermark_guard_without_collision Demo.cfg Cases.flaky Demo.w0 H).
  vm_compute. reflexivity.
Defined.

(** What a run leaves under one name of the data directory, when no
    selected URL has that base name. *)
Lemma notebook_frame c net w name :
  (∀ results url, fst (answer c net w) = Body results → selected results url →
                  Py.basename url ≠ name) →
  ∃ d', fs (snd (notebook c net w)) = Some d' ∧
        d' !! name =
          if advances (fst (notebook c net w)) (fst (answer c net w))
             && bool_decide (name = UPDATE)
          then Some (FORMAT (returned_at c net w))
          else (default ∅ (fs w) : gmap string string) !! name.
Proof.
  intros Hfree. rewrite notebook_stages.
  destruct (fst (answer c net w)) as [| |results] eqn:Ha;
    try (cbn [fst snd advances andb at_response fs]; eauto).
  specialize (Hfree results).
  destruct (finish_run c net results (resolved c w) (at_response c net w)
              (default ∅ (fs w)) eq_refl) as (done & _ & Hsel & H).
  assert (Hdone : Forall (λ ub : string * string, Py.basename ub.1 ≠ name) done).
  { eapply Forall_impl; [exact Hsel|]. cbn. intros ub Hs. apply Hfree; [reflexivity | exact Hs]. }
  destruct (finish c net results (resolved c w) (at_response c net w)) as [[[]|e] w'];
    cbn [fst snd advances andb].
  - destruct H as (b & -> & _ & _ & Hfs). eexists. split; [exact Hfs|].
    destruct b; cbn [andb].
    + case_bool_decide as Hn.
      * subst name. apply lookup_insert_eq.
      * rewrite lookup_insert_ne by congruence. apply (foldl_store_other _ _ _ Hdone).
    + apply (foldl_store_other _ _ _ Hdone).
  - destruct H as (last & _ & Hlast & _ & [Hfs | (url & partial & -> & Hfs)]);
      (eexists; split; [exact Hfs|]).
    + apply (foldl_store_other _ _ _ Hdone).
    + apply Forall_cons in Hlast as [Hs _].
      rewrite lookup_insert_ne by (apply Hfree; [reflexivity | exact Hs]).
      apply (foldl_store_other _ _ _ Hdone).
Qed.

(** (X2) Whatever happens, the data directory exists after a run, no file
    that was there has disappeared, and a file other than [.update] whose
    name is the base name of no selected URL holds what it held. *)
Theorem run_touches_only_its_targets c net w :
  ∃ d', fs (snd (notebook c net w)) = Some d' ∧
    (∀ name, is_Some ((default ∅ (fs w) : gmap string string) !! name) → is_Some (d' !! name)) ∧
    (∀ name, name ≠ UPDATE →
       (∀ results url, fst (answer c net w) = Body results → selected results url →
                       Py.basename url ≠ name) →
       d' !! name = (default ∅ (fs w) : gmap string string) !! name).
Proof.
  assert (Hkeep : ∃ d', fs (snd (notebook c net w)) = Some d' ∧
            ∀ name, is_Some ((default ∅ (fs w) : gmap string string) !! name) → is_Some (d' !! name)).
  { rewrite notebook_stages.
    destruct (fst (answer c net w)) as [| |results];
      try (cbn [snd at_response fs]; eauto).
    destruct (finish_run c net results (resolved c w) (at_response c net w)
                (default ∅ (fs w)) eq_refl) as (done & _ & _ & H).
    assert (Hins : ∀ (m : gmap string string) k v name,
              is_Some (m !! name) → is_Some (<[k := v]> m !! name)).
    { intros m k v name Hm. destruct (decide (k = name)) as [->|Hne].
      - rewrite lookup_insert_eq. eauto.
      - rewrite lookup_insert_ne by exact Hne. exact Hm. }
    destruct (finish c net results (resolved c w) (at_response c net w)) as [[[]|e] w'];
      cbn [snd].
    - destruct H as (b & _ & _ & _ & Hfs). eexists. split; [exact Hfs|].
      intros name Hname. pose proof (foldl_store_keeps done _ name (or_introl Hname)) as Hk.
      destruct b; [apply Hins|]; exact Hk.
    - destruct H as (last & _ & _ & _ & [Hfs | (url & partial & _ & Hfs)]);
        (eexists; split; [exact Hfs|]); intros name Hname;
        pose proof (foldl_store_keeps done _ name (or_introl Hname)) as Hk;
        [|apply Hins]; exact Hk. }
  destruct Hkeep as (d' & Hfs & Hkeep). exists d'. split; [exact Hfs|]. split; [exact Hkeep|].
  intros name Hne Hfree. destruct (notebook_frame c net w name Hfree) as (d'' & Hfs' & Hl).
  rewrite Hfs in Hfs'. injection Hfs' as <-. rewrite Hl.
  rewrite bool_decide_eq_false_2 by exact Hne. rewrite andb_false_r. reflexivity.
Qed.

Lemma no_items_downloads_nil results :
  has_items results = Ok false → downloads_of results = Ok [].
Proof.
  unfold has_items, downloads_of.
  destruct (Json.getitem results "items") as [items|]; [|discriminate].
  destruct items as [| | | s | l | kv]; cbn; try discriminate.
  - destruct s; cbn; [reflexivity|discriminate].
  - destruct l; cbn; [reflexivity|discriminate].
  - destruct kv; cbn; [reflexivity|discriminate].
Qed.

(** (X3) An answer with [hits] and no items ends the run without
    exception after three printed lines and the one request; the data
    directory is as the [.update] cell left it and the clock reading
    taken after the query is thrown away. *)
Theorem empty_answer_changes_nothing c net w results hits :
  fst (answer c net w) = Body results →
  Json.getitem results "hits" = Ok hits →
  has_items results = Ok false →
  notebook c net w =
    (Ok tt,
     World (Some (default ∅ (fs w))) (returned_at c net w)
           (out w ++ [note c w; ShowUrl (asked c w); ShowHits hits (ccid c) (resolved c w)])
           (sent w ++ [Urlopen (asked c w)])).
Proof.
  intros Ha Hh Hb. rewrite notebook_stages, Ha.
  unfold finish, bind, lift, print, utcnow, show_first, write_update, bind, lift, ret.
  rewrite Hh. cbn [at_response fs clock out sent]. rewrite Hb.
  rewrite (no_items_downloads_nil results Hb). cbn [download_loop]. unfold ret.
  rewrite <- app_assoc. reflexivity.
Qed.

Lemma empty_answer_changes_nothing_witness :
  fs (snd (notebook Demo.cfg Demo.quiet Demo.w0)) = fs Demo.w0.
Proof.
  rewrite (empty_answer_changes_nothing Demo.cfg Demo.quiet Demo.w0
             (Demo.page 0 []) (JNum 0) eq_refl eq_refl eq_refl).
  reflexivity.
Defined.

(** (X4) An answer that is no response, no JSON, has no [hits] or no
    sized [items] ends the run with the corresponding exception before
    the selection cell: only the query was sent and the data directory
    is as the [.update] cell left it. *)
Theorem refused_answer_aborts_before_selection c net w e :
  refusal (fst (answer c net w)) = Some e →
  fst (notebook c net w) = Raise e ∧
  sent (snd (notebook c net w)) = sent w ++ [Urlopen (asked c w)] ∧
  fs (snd (notebook c net w)) = Some (default ∅ (fs w)).
Proof.
  intros He. rewrite notebook_stages. unfold refusal in He.
  destruct (fst (answer c net w)) as [| |results].
  - injection He as <-. repeat split.
  - injection He as <-. repeat split.
  - unfold finish, bind, lift, print, utcnow, show_first, bind, lift.
    cbn [at_response fs clock out sent].
    destruct (Json.getitem results "hits") as [hits|e']; [|injection He as <-; repeat split].
    destruct (has_items results) as [b|e']; [discriminate|]. injection He as <-. repeat split.
Qed.

Lemma refused_answer_aborts_before_selection_witness :
  refusal (fst (answer Demo.cfg Cases.hitless Demo.w0)) = Some KeyError ∧
  fst (notebook Demo.cfg Cases.hitless Demo.w0) = Raise KeyError.
Proof.
  split; [reflexivity|].
  exact (proj1 (refused_answer_aborts_before_selection Demo.cfg Cases.hitless Demo.w0 KeyError eq_refl)).
Defined.

(** (X5) After a run that raised, the next run with the same parameters
    asks the catalog the same question: [.update] still holds the
    timestamp it held, provided no selected URL ends in [/.update]. *)
Theorem failed_run_retries_same_window c net w v e :
  watermark w = Some v →
  (∀ results url, fst (answer c net w) = Body results → selected results url →
                  Py.basename url ≠ UPDATE) →
  fst (notebook c net w) = Raise e →
  ∀ t o s,
    resolved c (World (fs (snd (notebook c net w))) t o s) = v ∧
    asked c (World (fs (snd (notebook c net w))) t o s) = asked c w.
Proof.
  intros Hv Hfree Hr t o s.
  destruct (notebook_frame c net w UPDATE Hfree) as (d' & Hfs & Hl).
  rewrite Hr in Hl. cbn [advances andb] in Hl. rewrite watermark_default, Hv in Hl.
  assert (Hres : resolved c (World (fs (snd (notebook c net w))) t o s) = v).
  { unfold resolved, watermark, stored. cbn [fs]. rewrite Hfs. cbn. rewrite Hl. reflexivity. }
  split; [exact Hres|]. unfold asked. rewrite Hres. unfold resolved. rewrite Hv. reflexivity.
Qed.

Lemma failed_run_retries_same_window_witness :
  fst (notebook Demo.cfg Cases.flaky Demo.w0) = Raise URLError ∧
  asked Demo.cfg (World (fs (snd (notebook Demo.cfg Cases.flaky Demo.w0))) 0 [] [])
  = asked Demo.cfg Demo.w0.
Proof.
  assert (Hr : fst (notebook Demo.cfg Cases.flaky Demo.w0) = Raise URLError)
    by (vm_compute; reflexivity).
  split; [exact Hr|].
  refine (proj2 (failed_run_retries_same_window Demo.cfg Cases.flaky Demo.w0
                   "2020-09-02T16:46:32Z" URLError eq_refl _ Hr 0 [] [])).
  intros results url Ha (ds & Hds & Hin). vm_compute in Ha. injection Ha as <-.
  vm_compute in Hds. injection Hds as <-.
  apply elem_of_cons in Hin as [Hu|Hin]; [injection Hu as ->; vm_compute; discriminate|].
  apply elem_of_cons in Hin as [Hu|Hin]; [injection Hu as ->; vm_compute; discriminate|].
  inversion Hin.
Defined.

(** (X6) What a successful run with items writes is what the next run
    reads: whatever its parameters and clock, the next run resolves its
    timestamp to the instant at which this run's query returned, and
    prints it in its NOTE line. *)
Theorem written_timestamp_is_read_back c net w w' results :
  notebook c net w = (Ok tt, w') →
  fst (answer c net w) = Body results →
  has_items results = Ok true →
  ∀ c2 t o s,
    resolved c2 (World (fs w') t o s) = FORMAT (returned_at c net w) ∧
    note c2 (World (fs w') t o s) = NoteFound (FORMAT (returned_at c net w)).
Proof.
  intros Hrun Ha Hb c2 t o s.
  destruct (notebook_ok c net w w' Hrun) as (results' & b & done & Ha' & Hb' & _ & _ & Hfs).
  rewrite Ha in Ha'. injection Ha' as <-. rewrite Hb in Hb'. injection Hb' as <-.
  unfold resolved, watermark, stored, note. cbn [fs]. rewrite Hfs. cbn.
  rewrite lookup_insert_eq. split; reflexivity.
Qed.

Lemma written_timestamp_is_read_back_witness :
  resolved (Config 5 "cmr.earthdata.nasa.gov" "C1234724470-POCLOUD" "resources/nrt")
           (World (fs (snd (notebook Demo.cfg Demo.net Demo.w0))) 0 [] [])
  = "2020-09-02T16:57:17Z".
Proof.
  assert (Hrun : notebook Demo.cfg Demo.net Demo.w0 = (Ok tt, snd (notebook Demo.cfg Demo.net Demo.w0)))
    by (vm_compute; reflexivity).
  rewrite (proj1 (written_timestamp_is_read_back Demo.cfg Demo.net Demo.w0 _
                    (Demo.page 2 [Demo.g1; Demo.g2]) Hrun eq_refl eq_refl _ 0 [] [])).
  vm_compute. reflexivity.
Defined.

Lemma retrieve_quiet c net f w : out (snd (retrieve c net f w)) = out w.
Proof.
  destruct w as [o t pr sn]. destruct f; try reflexivity.
  unfold retrieve, urlretrieve, bind, utcnow, send. cbn [clock fs out sent].
  destruct (archive net t s) as [[| partial | body] el];
    unfold raise, write_file; cbn [fs clock out sent]; try reflexivity;
    destruct o; try reflexivity; destruct (names_directory _); reflexivity.
Qed.

(** (X7) The loop prints one SUCCESS line per completed download, in the
    order of [downloads]; when it raises, the last line it printed is the
    one FAILURE line, naming the element that failed and the exception
    that leaves the loop. *)
Theorem download_loop_log c net downloads : ∀ w,
  match download_loop c net downloads w with
  | (Ok _, w') => out w' = out w ++ map Success downloads
  | (Raise e, w') =>
      ∃ done f rest,
        downloads = done ++ f :: rest ∧
        out w' = out w ++ map Success done ++ [Failure f e]
  end.
Proof.
  induction downloads as [|f rest IH]; intros w.
  - cbn. rewrite app_nil_r. reflexivity.
  - rewrite download_loop_cons.
    pose proof (retrieve_quiet c net f w) as Hquiet.
    destruct (retrieve c net f w) as [[[]|e] w1]; cbn [snd] in Hquiet.
    + specialize (IH (World (fs w1) (clock w1) (out w1 ++ [Success f]) (sent w1))).
      destruct (download_loop c net rest _) as [[[]|e] w2]; cbn [out] in IH.
      * rewrite IH, Hquiet, <- app_assoc. reflexivity.
      * destruct IH as (done & f' & rest' & -> & Hout).
        exists (f :: done), f', rest'. split; [reflexivity|].
        rewrite Hout, Hquiet, <- app_assoc. reflexivity.
    + exists [], f, rest. split; [reflexivity|]. cbn [out map app]. rewrite Hquiet. reflexivity.
Qed.

(** (X11) Every download a run requests goes to [data], a slash, and a
    name without slash, and that name is what the URL ends with after
    its last slash. *)
Theorem download_targets_are_base_names c net w url file :
  Urlretrieve url file ∈ sent (snd (notebook c net w)) →
  Urlretrieve url file ∈ sent w ∨
  ∃ name,
    file = (data c ++ "/" ++ name)%string ∧
    Py.contains "/" name = false ∧
    (url = name ∨ ∃ pre, url = String.append pre (String "/" name)).
Proof.
  destruct (notebook_sent c net w) as (urls & -> & _ & _).
  intros Hin. apply elem_of_app in Hin as [Hin|Hin]; [left; exact Hin|]. right.
  apply elem_of_cons in Hin as [Hin|Hin]; [discriminate|].
  apply list_elem_of_fmap in Hin as (url' & Heq & _). injection Heq as -> ->.
  exists (Py.basename url'). split; [reflexivity|]. split; [apply basename_no_slash|].
  apply basename_suffix.
Qed.

Lemma download_targets_are_base_names_witness :
  Urlretrieve Demo.u1 "resources/nrt/20041215200506-JPL-L2P_GHRSST-SSTskin-MODIS_T-N-v02.0-fv01.0.nc"
    ∈ sent (snd (notebook Demo.cfg Demo.net Demo.w0)) ∧
  Py.contains "/" "20041215200506-JPL-L2P_GHRSST-SSTskin-MODIS_T-N-v02.0-fv01.0.nc" = false.
Proof.
  assert (Hin : Urlretrieve Demo.u1 "resources/nrt/20041215200506-JPL-L2P_GHRSST-SSTskin-MODIS_T-N-v02.0-fv01.0.nc"
                  ∈ sent (snd (notebook Demo.cfg Demo.net Demo.w0))).
  { vm_compute. apply list_elem_of_further, list_elem_of_here. }
  split; [exact Hin|].
  destruct (download_targets_are_base_names Demo.cfg Demo.net Demo.w0 _ _ Hin)
    as [Hold | (name & Hfile & Hslash & _)].
  - inversion Hold.
  - vm_compute. reflexivity.
Defined.

(** The chain of stored values of a sequence of successful runs. *)
Lemma stored_chain ss :
  ∀ dir, all_succeed ss dir →
  ∀ k a b,
    (stored dir :: watermarks ss dir) !! k = Some a →
    (stored dir :: watermarks ss dir) !! S k = Some b →
    stored_le a b.
Proof.
  induction ss as [|s rest IH]; intros dir Hall k a b Ha Hb.
  - destruct k; discriminate Hb.
  - destruct Hall as (Hok & Hcap & Hrest). cbn [watermarks] in *.
    unfold run in *. destruct (notebook _ _ _) as [r w'] eqn:Hrun.
    cbn [fst snd] in *. subst r.
    destruct k as [|k].
    + change (Some (stored dir) = Some a) in Ha.
      change (Some (watermark w') = Some b) in Hb.
      injection Ha as <-. injection Hb as <-.
      exact (run_monotone _ _ _ _ Hrun Hcap).
    + change ((stored (fs w') :: watermarks rest (fs w')) !! k = Some a) in Ha.
      change ((stored (fs w') :: watermarks rest (fs w')) !! S k = Some b) in Hb.
      exact (IH _ Hrest k a b Ha Hb).
Qed.



(** (X13) The selector is strict: a related link without [Type], or a
    link tagged "GET DATA" without [URL], makes the selection of the
    record raise even when a well-formed "GET DATA" link comes before
    it. *)
Theorem selector_is_strict r umm before u after e :
  Json.getitem r "umm" = Ok umm →
  Json.getitem umm "RelatedUrls" = Ok (JArr (before ++ u :: after)) →
  Forall well_formed_link before →
  (Json.getitem u "Type" = Raise e ∨
   (is_get_data u = true ∧ Json.getitem u "URL" = Raise e)) →
  select r = Raise e.
Proof.
  intros Humm Hrel Hwf Hu. unfold select. rewrite Humm, Hrel. cbn [Json.iter].
  assert (Hraise : get_data_urls (before ++ u :: after) = Raise e).
  { clear Hrel Humm.
    induction Hwf as [|x before (t & y & Ht & Hy) _ IH]; cbn [app get_data_urls].
    - destruct Hu as [Ht | [Hg Hurl]].
      + rewrite Ht. reflexivity.
      + unfold is_get_data in Hg. destruct (Json.getitem u "Type") as [t|]; [|discriminate].
        rewrite Hg, Hurl. reflexivity.
    - rewrite Ht. destruct (Json.eq_str t "GET DATA"); [|exact IH].
      rewrite Hy, IH. reflexivity. }
  rewrite Hraise. reflexivity.
Qed.

Lemma selector_is_strict_witness :
  select (Demo.granule [Demo.link "GET DATA" "https://a/first.nc";
                        JObj [("URL", JStr "https://a/x.md5")]])
  = Raise KeyError.
Proof.
  refine (selector_is_strict
    (Demo.granule [Demo.link "GET DATA" "https://a/first.nc";
                   JObj [("URL", JStr "https://a/x.md5")]])
    (JObj [("RelatedUrls", JArr [Demo.link "GET DATA" "https://a/first.nc";
                                 JObj [("URL", JStr "https://a/x.md5")]]);
           ("GranuleUR", JStr "g")])
    [Demo.link "GET DATA" "https://a/first.nc"]
    (JObj [("URL", JStr "https://a/x.md5")]) [] KeyError eq_refl eq_refl _ _).
  - repeat constructor. eexists _, _. split; reflexivity.
  - left. reflexivity.
Defined.

(** ** Written timestamps compare as the seconds they stand for *)

Module CalendarOrder.
Import Datetime Calendar CalendarFacts.

Lemma isoformat_second_compare s s' :
  1 <= s / 86400 + EPOCH_ORDINAL <= 3652059 →
  1 <= s' / 86400 + EPOCH_ORDINAL <= 3652059 →
  String.compare (isoformat_second s) (isoformat_second s') = (s ?= s').
Proof.
  intros Hs Hs'. rewrite !isoformat_second_render.
  pose proof (ord2ymd_valid (s / 86400 + EPOCH_ORDINAL) Hs) as Hv.
  pose proof (ord2ymd_valid (s' / 86400 + EPOCH_ORDINAL) Hs') as Hv'.
  assert (Hlt : s / 86400 < s' / 86400 →
                date_key (s / 86400 + EPOCH_ORDINAL) < date_key (s' / 86400 + EPOCH_ORDINAL)).
  { intros H. apply date_key_mono. lia. }
  assert (Hgt : s' / 86400 < s / 86400 →
                date_key (s' / 86400 + EPOCH_ORDINAL) < date_key (s / 86400 + EPOCH_ORDINAL)).
  { intros H. apply date_key_mono. lia. }
  assert (Heq : s / 86400 = s' / 86400 →
                date_key (s / 86400 + EPOCH_ORDINAL) = date_key (s' / 86400 + EPOCH_ORDINAL)).
  { intros ->. reflexivity. }
  unfold date_key in Hlt, Hgt, Heq.
  pose proof (Z.div_mod s 86400 ltac:(lia)) as Hd.
  pose proof (Z.div_mod s' 86400 ltac:(lia)) as Hd'.
  pose proof (Z.mod_pos_bound s 86400 ltac:(lia)) as Hb.
  pose proof (Z.mod_pos_bound s' 86400 ltac:(lia)) as Hb'.
  set (q := s / 86400) in *. set (q' := s' / 86400) in *.
  set (r := s mod 86400) in *. set (r' := s' mod 86400) in *.
  destruct (ord2ymd (q + EPOCH_ORDINAL)) as [[y m] d].
  destruct (ord2ymd (q' + EPOCH_ORDINAL)) as [[y' m'] d'].
  clearbody q q' r r'.
  rewrite compare_render by (Z.div_mod_to_equations; lia).
  unfold key.
  set (T := (r / 3600 * 100 + r mod 3600 / 60) * 100 + r mod 60).
  set (T' := (r' / 3600 * 100 + r' mod 3600 / 60) * 100 + r' mod 60).
  assert (HT : 0 <= T < 1000000) by (unfold T; Z.div_mod_to_equations; lia).
  assert (HT' : 0 <= T' < 1000000) by (unfold T'; Z.div_mod_to_equations; lia).
  assert (Hr : (r ?= r') = (T ?= T')).
  { unfold T, T'. destruct (Z.compare_spec r r') as [->|H|H].
    - symmetry. apply Z.compare_refl.
    - symmetry. apply Z.compare_lt_iff. Z.div_mod_to_equations. lia.
    - symmetry. apply Z.compare_gt_iff. Z.div_mod_to_equations. lia. }
  replace (((((y * 100 + m) * 100 + d) * 100 + r / 3600) * 100 + r mod 3600 / 60) * 100 + r mod 60)
    with (((y * 100 + m) * 100 + d) * 1000000 + T) by (unfold T; lia).
  replace (((((y' * 100 + m') * 100 + d') * 100 + r' / 3600) * 100 + r' mod 3600 / 60) * 100 + r' mod 60)
    with (((y' * 100 + m') * 100 + d') * 1000000 + T') by (unfold T'; lia).
  clearbody T T'.
  destruct (Z.lt_trichotomy q q') as [Hq | [Hq | Hq]].
  - specialize (Hlt Hq). transitivity Lt; [apply Z.compare_lt_iff; lia|].
    symmetry. apply Z.compare_lt_iff. lia.
  - specialize (Heq Hq). subst q'.
    replace ((y' * 100 + m') * 100 + d') with ((y * 100 + m) * 100 + d) by lia.
    rewrite Z.add_compare_mono_l, <- Hr. subst s s'. symmetry. apply Z.add_compare_mono_l.
  - specialize (Hgt Hq). transitivity Gt; [apply Z.compare_gt_iff; lia|].
    symmetry. apply Z.compare_gt_iff. lia.
Qed.

End CalendarOrder.



(** ** The encoded query *)

Lemma occurrences_app c a b :
  occurrences c (String.append a b) = (occurrences c a + occurrences c b)%nat.
Proof.
  induction a as [|d a IH]; [reflexivity|].
  rewrite CalendarFacts.append_cons. cbn [occurrences]. rewrite IH. lia.
Qed.

Lemma hex_digit_safe x : 0 <= x < 16 → Py.always_safe (Py.hex_digit x) = true.
Proof.
  intros Hx.
  assert (H : x = 0 ∨ x = 1 ∨ x = 2 ∨ x = 3 ∨ x = 4 ∨ x = 5 ∨ x = 6 ∨ x = 7 ∨
              x = 8 ∨ x = 9 ∨ x = 10 ∨ x = 11 ∨ x = 12 ∨ x = 13 ∨ x = 14 ∨ x = 15) by lia.
  repeat (destruct H as [-> | H]; [reflexivity|]). subst x. reflexivity.
Qed.

Lemma ascii_code_bound d : 0 <= Z.of_N (N_of_ascii d) < 256.
Proof. pose proof (N_ascii_bounded d). lia. Qed.

(** [quote_plus] puts out nothing but letters, digits, [_.-~], [%] and
    [+]. *)
Lemma quote_plus_clean c s :
  Py.always_safe c = false → c ≠ "%"%char → c ≠ "+"%char →
  occurrences c (Py.quote_plus s) = O.
Proof.
  intros Hc Hpc Hpl.
  assert (Hne : ∀ d, Py.always_safe d = true → Ascii.eqb c d = false).
  { intros d Hd. destruct (Ascii.eqb_spec c d) as [->|]; [congruence | reflexivity]. }
  induction s as [|d r IH]; [reflexivity|]. cbn [Py.quote_plus].
  destruct (Py.always_safe d) eqn:Hd.
  - cbn [occurrences]. rewrite (Hne d Hd), IH. reflexivity.
  - destruct (Ascii.eqb d " ").
    + cbn [occurrences]. rewrite (proj2 (Ascii.eqb_neq c "+") Hpl), IH. reflexivity.
    + pose proof (ascii_code_bound d) as Hb.
      cbn [occurrences]. rewrite (proj2 (Ascii.eqb_neq c "%") Hpc).
      assert (H1 : 0 <= Z.of_N (N_of_ascii d) / 16 < 16) by (Z.div_mod_to_equations; lia).
      assert (H2 : 0 <= Z.of_N (N_of_ascii d) mod 16 < 16) by (Z.div_mod_to_equations; lia).
      rewrite (Hne _ (hex_digit_safe _ H1)), (Hne _ (hex_digit_safe _ H2)), IH. reflexivity.
Qed.

Lemma query_shape c ts :
  query c ts =
  String.append "scroll=true&page_size=2000&sort_key=-start_date&collection_concept_id="
    (String.append (Py.quote_plus (ccid c))
      (String.append "&created_at="
        (String.append (Py.quote_plus ts) "&bounding_box=-146.5%2C57.5%2C-146%2C58"))).
Proof. reflexivity. Qed.

(** (X9) Whatever the collection identifier and the timestamp hold, the
    encoded query has exactly six parameters: five [&] and six [=], and
    no space, [#] or [?].  A value cannot add a parameter of its own. *)
Theorem query_has_six_parameters c ts :
  occurrences "&" (query c ts) = 5%nat ∧
  occurrences "=" (query c ts) = 6%nat ∧
  occurrences " " (query c ts) = O ∧
  occurrences "#" (query c ts) = O ∧
  occurrences "?" (query c ts) = O.
Proof.
  rewrite query_shape, !occurrences_app.
  rewrite !(quote_plus_clean "&"), !(quote_plus_clean "="), !(quote_plus_clean " "),
    !(quote_plus_clean "#"), !(quote_plus_clean "?") by (reflexivity || discriminate).
  repeat split; reflexivity.
Qed.

Lemma hex_digit_inj a b :
  0 <= a < 16 → 0 <= b < 16 → Py.hex_digit a = Py.hex_digit b → a = b.
Proof.
  intros Ha Hb.
  assert (H : ∀ x, 0 <= x < 16 →
              Z.of_N (N_of_ascii (Py.hex_digit x)) = if x <? 10 then 48 + x else 55 + x).
  { intros x Hx. unfold Py.hex_digit. destruct (x <? 10) eqn:E;
      rewrite N_ascii_embedding by lia; lia. }
  intros Heq. pose proof (H a Ha) as Ea. pose proof (H b Hb) as Eb. rewrite Heq in Ea.
  destruct (Z.ltb_spec a 10), (Z.ltb_spec b 10); lia.
Qed.

Lemma quote_plus_inj : ∀ s1 s2, Py.quote_plus s1 = Py.quote_plus s2 → s1 = s2.
Proof.
  induction s1 as [|c r IH]; intros [|c' r'] H.
  - reflexivity.
  - cbn [Py.quote_plus] in H.
    destruct (Py.always_safe c'); [discriminate|]. destruct (Ascii.eqb c' " "); discriminate.
  - cbn [Py.quote_plus] in H.
    destruct (Py.always_safe c); [discriminate|]. destruct (Ascii.eqb c " "); discriminate.
  - cbn [Py.quote_plus] in H.
    destruct (Py.always_safe c) eqn:Hc, (Py.always_safe c') eqn:Hc'.
    + injection H as -> H. f_equal. exact (IH _ H).
    + destruct (Ascii.eqb c' " "); injection H as -> H; discriminate Hc.
    + destruct (Ascii.eqb c " "); injection H as <- H; discriminate Hc'.
    + destruct (Ascii.eqb_spec c " ") as [->|Hs], (Ascii.eqb_spec c' " ") as [->|Hs'];
        try discriminate H.
      * injection H as H. f_equal. exact (IH _ H).
      * injection H as H1 H2 H. f_equal; [|exact (IH _ H)].
        pose proof (ascii_code_bound c) as Hb. pose proof (ascii_code_bound c') as Hb'.
        apply hex_digit_inj in H1; [|Z.div_mod_to_equations; lia..].
        apply hex_digit_inj in H2; [|Z.div_mod_to_equations; lia..].
        assert (E : N_of_ascii c = N_of_ascii c') by (Z.div_mod_to_equations; lia).
        rewrite <- (ascii_N_embedding c), <- (ascii_N_embedding c'), E. reflexivity.
Qed.

Lemma append_cancel_l a : ∀ x y, String.append a x = String.append a y → x = y.
Proof.
  induction a as [|c a IH]; intros x y H; [exact H|].
  rewrite !CalendarFacts.append_cons in H. injection H as H. exact (IH _ _ H).
Qed.

Lemma length_append a b :
  String.length (String.append a b) = (String.length a + String.length b)%nat.
Proof.
  induction a as [|c a IH]; [reflexivity|].
  rewrite CalendarFacts.append_cons. cbn [String.length]. rewrite IH. reflexivity.
Qed.

Lemma append_cancel_r b : ∀ x y, String.append x b = String.append y b → x = y.
Proof.
  induction x as [|c x IH]; intros [|d y] H.
  - reflexivity.
  - apply (f_equal String.length) in H. rewrite CalendarFacts.append_cons in H.
    cbn [String.length] in H. rewrite CalendarFacts.append_nil, length_append in H. lia.
  - apply (f_equal String.length) in H. rewrite CalendarFacts.append_cons in H.
    cbn [String.length] in H. rewrite CalendarFacts.append_nil, length_append in H. lia.
  - rewrite !CalendarFacts.append_cons in H. injection H as -> H. f_equal. exact (IH _ H).
Qed.

(** (X10) The encoding loses nothing: with the same parameters, two
    different timestamps always give two different query URLs. *)
Theorem different_timestamps_different_urls c ts ts' :
  ts ≠ ts' → url c ts ≠ url c ts'.
Proof.
  intros Hne Heq. apply Hne. apply quote_plus_inj.
  unfold url in Heq. rewrite !query_shape in Heq.
  apply (append_cancel_l "https://") in Heq.
  apply append_cancel_l in Heq.
  apply (append_cancel_l "/search/granules.umm_json?") in Heq.
  apply append_cancel_l in Heq. apply append_cancel_l in Heq.
  apply append_cancel_l in Heq.
  exact (append_cancel_r _ _ _ Heq).
Qed.

Lemma different_timestamps_different_urls_witness :
  url Demo.cfg "2020-09-02T16:46:32Z" ≠ url Demo.cfg "2020-09-02T16:57:17Z".
Proof. apply different_timestamps_different_urls. discriminate. Defined.

(** * The Earthdata Login cell *)

(** The credentials the cell settles on without asking, if any. *)
Lemma setup_run endpoint s :
  Auth.setup_earthdata_login_auth endpoint s =
  let asking :=
    let shown := Auth.stdout s ++ [Auth.PLEASE; Auth.ONLY endpoint; "Username:"] in
    match Auth.stdin s with
    | u :: p :: rest =>
        (Auth.Done tt,
         Auth.Console (Auth.home s) rest shown
           (Some (Auth.Opener [(None, endpoint, u, p)] [])))
    | _ => (Auth.Raised Auth.EOFError, Auth.Console (Auth.home s) [] shown (Auth.installed s))
    end in
  match Auth.home s with
  | Auth.Malformed => (Auth.Raised Auth.NetrcParseError, s)
  | Auth.NoFile => asking
  | Auth.Hosts hosts =>
      match Auth.authenticators hosts endpoint with
      | Some (u, _, p) =>
          (Auth.Done tt,
           Auth.Console (Auth.home s) (Auth.stdin s) (Auth.stdout s)
             (Some (Auth.Opener [(None, endpoint, u, p)] [])))
      | None => asking
      end
  end.
Proof.
  destruct s as [h i o op].
  unfold Auth.setup_earthdata_login_auth, Auth.try_except, Auth.from_netrc, Auth.ask,
    Auth.input, Auth.getpass, Auth.bind, Auth.print, Auth.readline, Auth.ret,
    Auth.install_opener.
  cbn [Auth.home Auth.stdin Auth.stdout Auth.installed].
  destruct h as [| |hosts]; [| reflexivity |];
    [|destruct (Auth.authenticators hosts endpoint) as [[[u a] p]|]; [reflexivity|]];
    destruct i as [|u [|p rest]]; cbn [Auth.home Auth.stdin Auth.stdout Auth.installed fst snd];
    rewrite <- ?app_assoc; reflexivity.
Qed.

(** (X14) When the cell raises, no opener has been installed: the one
    that was there, cookies included, stays.  A netrc file that cannot
    be parsed is fatal at once, without any prompt; the other way to
    fail is to run out of input after the prompts. *)
Theorem failed_setup_installs_nothing endpoint s e :
  fst (Auth.setup_earthdata_login_auth endpoint s) = Auth.Raised e →
  let s' := snd (Auth.setup_earthdata_login_auth endpoint s) in
  Auth.installed s' = Auth.installed s ∧
  ((e = Auth.NetrcParseError ∧ Auth.home s = Auth.Malformed ∧ s' = s) ∨
   (e = Auth.EOFError ∧ (length (Auth.stdin s) < 2)%nat ∧
    Auth.stdout s' = Auth.stdout s ++ [Auth.PLEASE; Auth.ONLY endpoint; "Username:"])).
Proof.
  rewrite setup_run. cbv zeta.
  assert (Hask : ∀ r : Auth.outcome unit * Auth.console,
    r = match Auth.stdin s with
        | u :: p :: rest =>
            (Auth.Done tt,
             Auth.Console (Auth.home s) rest
               (Auth.stdout s ++ [Auth.PLEASE; Auth.ONLY endpoint; "Username:"])
               (Some (Auth.Opener [(None, endpoint, u, p)] [])))
        | _ => (Auth.Raised Auth.EOFError,
                Auth.Console (Auth.home s) []
                  (Auth.stdout s ++ [Auth.PLEASE; Auth.ONLY endpoint; "Username:"])
                  (Auth.installed s))
        end →
    fst r = Auth.Raised e →
    Auth.installed (snd r) = Auth.installed s ∧
    ((e = Auth.NetrcParseError ∧ Auth.home s = Auth.Malformed ∧ snd r = s) ∨
     (e = Auth.EOFError ∧ (length (Auth.stdin s) < 2)%nat ∧
      Auth.stdout (snd r) = Auth.stdout s ++ [Auth.PLEASE; Auth.ONLY endpoint; "Username:"]))).
  { intros r -> Hr. destruct (Auth.stdin s) as [|u [|p rest]]; cbn in *;
      try discriminate Hr; injection Hr as <-; (split; [reflexivity|right]);
      repeat split; lia. }
  destruct (Auth.home s) as [| |hosts] eqn:Hh.
  - intros Hr. exact (Hask _ eq_refl Hr).
  - cbn. intros Hr. injection Hr as <-. split; [reflexivity|]. left. auto.
  - destruct (Auth.authenticators hosts endpoint) as [[[u a] p]|].
    + cbn. discriminate.
    + intros Hr. exact (Hask _ eq_refl Hr).
Qed.

Lemma failed_setup_installs_nothing_witness :
  fst (Auth.setup_earthdata_login_auth "uat.urs.earthdata.nasa.gov" Cases.silent)
    = Auth.Raised Auth.EOFError ∧
  Auth.installed (snd (Auth.setup_earthdata_login_auth "uat.urs.earthdata.nasa.gov" Cases.silent))
    = Some (Auth.Opener [] ["session=1"]).
Proof.
  split; [reflexivity|].
  exact (proj1 (failed_setup_installs_nothing "uat.urs.earthdata.nasa.gov" Cases.silent
                  Auth.EOFError eq_refl)).
Defined.

(** (X15) Two calls in a row do not add up: after both have succeeded,
    the installed opener knows the second endpoint only, with the
    credentials the second call settled on (the netrc entry if there is
    one, else the two lines typed), and its cookie jar is empty. *)
Theorem later_setup_replaces_earlier e1 e2 s s' :
  Auth.bind (Auth.setup_earthdata_login_auth e1)
            (fun _ => Auth.setup_earthdata_login_auth e2) s = (Auth.Done tt, s') →
  ∃ u p,
    Auth.installed s' = Some (Auth.Opener [(None, e2, u, p)] []) ∧
    match Auth.home s with
    | Auth.Hosts hosts =>
        match Auth.authenticators hosts e2 with
        | Some (login, _, password) => u = login ∧ p = password
        | None => ∃ pre, Auth.stdin s = pre ++ u :: p :: Auth.stdin s'
        end
    | _ => ∃ pre, Auth.stdin s = pre ++ u :: p :: Auth.stdin s'
    end.
Proof.
  unfold Auth.bind at 1.
  destruct (Auth.setup_earthdata_login_auth e1 s) as [[[]|e] s1] eqn:H1; [|discriminate].
  assert (Hfirst : Auth.home s1 = Auth.home s ∧ ∃ pre, Auth.stdin s = pre ++ Auth.stdin s1).
  { rewrite setup_run in H1. cbv zeta in H1.
    destruct (Auth.home s) as [| |hosts].
    - destruct (Auth.stdin s) as [|u [|p rest]]; try discriminate H1.
      injection H1 as <-. split; [reflexivity|]. exists [u; p]. reflexivity.
    - discriminate H1.
    - destruct (Auth.authenticators hosts e1) as [[[u a] p]|].
      + injection H1 as <-. split; [reflexivity|]. exists []. reflexivity.
      + destruct (Auth.stdin s) as [|u [|p rest]]; try discriminate H1.
        injection H1 as <-. split; [reflexivity|]. exists [u; p]. reflexivity. }
  destruct Hfirst as (Hhome & pre & Hpre).
  rewrite setup_run. cbv zeta. rewrite Hhome, Hpre.
  destruct (Auth.home s) as [| |hosts].
  - destruct (Auth.stdin s1) as [|u [|p rest]]; try discriminate.
    intros H. injection H as <-. exists u, p. split; [reflexivity|]. exists pre. reflexivity.
  - discriminate.
  - destruct (Auth.authenticators hosts e2) as [[[u a] p]|].
    + intros H. injection H as <-. exists u, p. split; [reflexivity|]. auto.
    + destruct (Auth.stdin s1) as [|u [|p rest]]; try discriminate.
      intros H. injection H as <-. exists u, p. split; [reflexivity|]. exists pre. reflexivity.
Qed.

Lemma later_setup_replaces_earlier_witness :
  Auth.installed
    (snd (Auth.bind (Auth.setup_earthdata_login_auth "uat.urs.earthdata.nasa.gov")
                    (fun _ => Auth.setup_earthdata_login_auth "urs.earthdata.nasa.gov")
                    Cases.mixed))
  = Some (Auth.Opener [(None, "urs.earthdata.nasa.gov", "bob", "hunter2")] []).
Proof.
  assert (H : Auth.bind (Auth.setup_earthdata_login_auth "uat.urs.earthdata.nasa.gov")
                (fun _ => Auth.setup_earthdata_login_auth "urs.earthdata.nasa.gov") Cases.mixed
              = (Auth.Done tt,
                 snd (Auth.bind (Auth.setup_earthdata_login_auth "uat.urs.earthdata.nasa.gov")
                        (fun _ => Auth.setup_earthdata_login_auth "urs.earthdata.nasa.gov")
                        Cases.mixed)))
    by (vm_compute; reflexivity).
  destruct (later_setup_replaces_earlier _ _ _ _ H) as (u & p & Hi & Hsrc).
  rewrite Hi. vm_compute in Hsrc. destruct Hsrc as (pre & Hpre).
  destruct pre as [|a [|b pre]]; try discriminate Hpre.
  - injection Hpre as <- <-. reflexivity.
  - destruct pre; discriminate Hpre.
Defined.
